(** * AutoEDAer: tabular-data utilities (processors/data_processing.py)

    A shallow embedding of the [FeatureSelection], [DataProcess] and
    [MissingValue] classes, and of [DataImport.import_file].
    The functions are thin wrappers around dataframe-library calls, so the
    development has two layers: a model of the library operations the
    source calls (modules [Np] and [Pandas], following the documented
    behaviour of those operations) and the source functions themselves,
    written call by call on top of that model.  Definitions come first,
    the properties of each class afterwards. *)

From Stdlib Require Import ZArith QArith Qround String List Lia.
From stdpp Require Import base decidable option list strings.

Open Scope string_scope.
Open Scope list_scope.

(** ** Python values: labels, exceptions, results *)

Module Py.

(** Labels of rows and columns: any hashable; integers and strings are
    the ones that occur. *)
Inductive label :=
| LInt (z : Z)
| LStr (s : string).

#[global] Instance label_eq_dec : EqDecision label.
Proof. solve_decision. Defined.

Inductive exn :=
| ValueError (msg : string)
| KeyError (keys : list label)
| TypeError (msg : string)
| AttributeError (msg : string).

#[global] Instance exn_eq_dec : EqDecision exn.
Proof. solve_decision. Defined.

(** A call returns a value or raises. *)
Inductive res (A : Type) :=
| Ok (a : A)
| Raise (e : exn).
#[global] Arguments Ok {A} a.
#[global] Arguments Raise {A} e.

#[global] Instance res_ret : MRet res := fun _ a => Ok a.
#[global] Instance res_bind : MBind res := fun _ _ k r =>
  match r with
  | Ok a => k a
  | Raise e => Raise e
  end.

(** [except ValueError]: the only class the source ever catches. *)
Definition is_ValueError (e : exn) : bool :=
  match e with ValueError _ => true | _ => false end.

(** Truth value of an optional list: [None] and [[]] are both falsy. *)
Definition truthy {A} (x : option (list A)) : bool :=
  match x with
  | Some (_ :: _) => true
  | _ => false
  end.

(** [x or default] *)
Definition or_else {A} (x : option (list A)) (default : list A) : list A :=
  match x with
  | Some (a :: l) => a :: l
  | _ => default
  end.

(** [x or default] on an optional integer: [None] and [0] are falsy. *)
Definition or_else_int (x : option Z) (default : Z) : Z :=
  match x with
  | Some 0%Z | None => default
  | Some w => w
  end.

(** [int(q)]: truncation toward zero. *)
Definition int (q : Q) : Z := Z.quot (Qnum q) (Zpos (Qden q)).

End Py.
Import Py.

(** ** Numeric dtypes *)

Module Np.

Inductive width := W8 | W16 | W32 | W64.

Inductive dtype :=
| Int (w : width)
| UInt (w : width)
| Float32
| Float64
| Object.

#[global] Instance width_eq_dec : EqDecision width.
Proof. solve_decision. Defined.
#[global] Instance dtype_eq_dec : EqDecision dtype.
Proof. solve_decision. Defined.

Definition bits (w : width) : Z :=
  match w with W8 => 8 | W16 => 16 | W32 => 32 | W64 => 64 end.

(** [dtype.kind] *)
Definition kind (d : dtype) : string :=
  match d with
  | Int _ => "i"
  | UInt _ => "u"
  | Float32 | Float64 => "f"
  | Object => "O"
  end.

(** [np.iinfo(t).min] and [np.iinfo(t).max] of the signed types. *)
Definition iinfo_min (w : width) : Z := - 2 ^ (bits w - 1).
Definition iinfo_max (w : width) : Z := 2 ^ (bits w - 1) - 1.

(** The values a dtype can hold (integer kinds only). *)
Definition in_range (d : dtype) (z : Z) : Prop :=
  match d with
  | Int w => (iinfo_min w <= z <= iinfo_max w)%Z
  | UInt w => (0 <= z < 2 ^ bits w)%Z
  | _ => True
  end.

Section Typed.
(** Floating-point values stay abstract; [single_exact x] is the test
    [x == x.astype(np.float32)]. *)
Variable F : Type.
Variable single_exact : F -> bool.

(** A typed column as [infer_numeric_dtype] sees it: the dtype and the
    data.  Integer columns hold no missing marker; in a float column
    [None] is NaN. *)
Inductive payload :=
| Integers (vals : list Z)
| Floats (vals : list (option F))
| Objects.

Record TypedSeries := mkSeries {
  s_dtype : dtype;
  s_data : payload
}.

(** [series.min()] and [series.max()]; on an empty column the result
    is NaN, here [None]. *)
Definition s_min (s : TypedSeries) : option Z :=
  match s_data s with
  | Integers (z :: l) => Some (fold_left Z.min l z)
  | _ => None
  end.

Definition s_max (s : TypedSeries) : option Z :=
  match s_data s with
  | Integers (z :: l) => Some (fold_left Z.max l z)
  | _ => None
  end.

(** [x >= b] and [x <= b]; every comparison with NaN is false. *)
Definition ge (x : option Z) (b : Z) : bool :=
  match x with Some z => (b <=? z)%Z | None => false end.
Definition le (x : option Z) (b : Z) : bool :=
  match x with Some z => (z <=? b)%Z | None => false end.

(** [series.dropna()] *)
Definition s_dropna (s : TypedSeries) : list F :=
  match s_data s with
  | Floats vals => omap id vals
  | _ => []
  end.

End Typed.
#[global] Arguments Integers {F} vals.
#[global] Arguments Floats {F} vals.
#[global] Arguments Objects {F}.
#[global] Arguments mkSeries {F} s_dtype s_data.
#[global] Arguments s_dtype {F} _.
#[global] Arguments s_data {F} _.
#[global] Arguments s_min {F} _.
#[global] Arguments s_max {F} _.
#[global] Arguments s_dropna {F} _.

End Np.

(** ** The dataframe model *)

Module Pandas.

(** A column: its cells in row order; a cell is a value or the missing
    marker. *)
Abbreviation Series V := (list (option V)).

Section Frame.
Context {V : Type} `{EqDecision V}.

(** A frame: the row labels and the labelled columns, in order. *)
Record DataFrame := mkDF {
  index : list label;
  columns : list (label * Series V)
}.

Definition wf (df : DataFrame) : Prop :=
  Forall (fun c => length c.2 = length (index df)) (columns df).

(** [df.shape[0]] *)
Definition nrows (df : DataFrame) : nat := length (index df).

(** [df.columns] *)
Definition col_labels (df : DataFrame) : list label := (columns df).*1.

(** Selection by a boolean mask, position by position. *)
Definition select {A} (mask : list bool) (l : list A) : list A :=
  map snd (filter (fun bx => bx.1 = true) (zip mask l)).

(** [Series.count()]: the non-missing cells. *)
Definition count (s : Series V) : nat := length (omap id s).

(** [Series.nunique()] with its default [dropna=True]: the distinct
    non-missing values. *)
Definition nunique (s : Series V) : nat := length (remove_dups (omap id s)).

(** [df.nunique()]: one count per column, in column order. *)
Definition DataFrame_nunique (df : DataFrame) : list nat :=
  map (fun c => nunique c.2) (columns df).

(** [counts.isin(values)] *)
Definition isin (counts : list nat) (values : list nat) : list bool :=
  map (fun k => bool_decide (k ∈ values)) counts.

(** [~mask] *)
Definition invert (mask : list bool) : list bool := map negb mask.

(** [df.loc[:, mask]] with a boolean mask aligned with the columns. *)
Definition loc_columns (df : DataFrame) (mask : list bool) : DataFrame :=
  mkDF (index df) (select mask (columns df)).

(** [df[col]]: the column with that label, [KeyError] when there is
    none. *)
Definition getitem (df : DataFrame) (col : label) : res (Series V) :=
  match find (fun c => bool_decide (c.1 = col)) (columns df) with
  | Some c => Ok c.2
  | None => Raise (KeyError [col])
  end.

(** [df[cols]]: the frame of the listed columns, in the listed order;
    [KeyError] names the labels that are not columns. *)
Definition getitem_list (df : DataFrame) (cols : list label) : res DataFrame :=
  match filter (fun l => l ∉ col_labels df) cols with
  | [] => Ok (mkDF (index df)
               (omap (fun l => find (fun c => bool_decide (c.1 = l)) (columns df)) cols))
  | missing => Raise (KeyError missing)
  end.

(** [df[col] = s]: replaces the column, or appends it under a new
    label. *)
Definition setitem (df : DataFrame) (col : label) (s : Series V) : DataFrame :=
  if bool_decide (col ∈ col_labels df)
  then mkDF (index df)
         (map (fun c => if bool_decide (c.1 = col) then (col, s) else c) (columns df))
  else mkDF (index df) (columns df ++ [(col, s)]).

(** *** dropna along the column axis *)

(** The positions of a label in an index. *)
Definition positions (idx : list label) (l : label) : list nat :=
  filter (fun i => idx !! i = Some l) (seq 0 (length idx)).

(** [Series.take(rows)] *)
Definition take_rows (rows : list nat) (s : Series V) : Series V :=
  omap (fun i => s !! i) rows.

(** [df.dropna(axis=1, thresh=t, subset=labels)].  With [axis=1] the
    columns are the things dropped, and [subset] names "labels along the
    other axis to consider": it is looked up in the row index.  A label
    that is no row label raises [KeyError]; otherwise a column is kept
    when it has at least [t] non-missing cells within the rows so
    selected. *)
Definition dropna_columns (df : DataFrame) (thresh : Z) (subset : list label)
  : res DataFrame :=
  match filter (fun l => l ∉ index df) subset with
  | [] =>
      let rows := concat (map (positions (index df)) subset) in
      let mask := map (fun c => (thresh <=? Z.of_nat (count (take_rows rows c.2)))%Z)
                      (columns df) in
      Ok (loc_columns df mask)
  | missing => Raise (KeyError missing)
  end.

(** *** fillna *)

Definition map_columns (f : Series V -> Series V) (df : DataFrame) : DataFrame :=
  mkDF (index df) (map (fun c => (c.1, f c.2)) (columns df)).

Definition fill_cell (v : V) (x : option V) : option V :=
  match x with Some a => Some a | None => Some v end.

(** [df.fillna(value)] with a scalar; without any value the call is
    rejected. *)
Definition fillna_value (df : DataFrame) (value : option V) : res DataFrame :=
  match value with
  | Some v => Ok (map_columns (map (fill_cell v)) df)
  | None => Raise (ValueError "Must specify a fill 'value' or 'method'.")
  end.

(** Forward fill: the last value seen so far goes into a missing slot. *)
Fixpoint ffill_from (last : option V) (s : Series V) : Series V :=
  match s with
  | [] => []
  | Some v :: r => Some v :: ffill_from (Some v) r
  | None :: r => last :: ffill_from last r
  end.

Definition ffill (s : Series V) : Series V := ffill_from None s.

(** Backward fill: the next value goes into a missing slot. *)
Fixpoint bfill (s : Series V) : Series V :=
  match s with
  | [] => []
  | x :: r =>
      let r' := bfill r in
      match x with
      | Some v => Some v :: r'
      | None => mjoin (head r') :: r'
      end
  end.

(** [df.fillna(method=m)] *)
Definition fillna_method (df : DataFrame) (m : string) : res DataFrame :=
  if bool_decide (m ∈ ["ffill"; "pad"]) then Ok (map_columns ffill df)
  else if bool_decide (m ∈ ["bfill"; "backfill"]) then Ok (map_columns bfill df)
  else Raise (ValueError "Invalid fill method").

(** [df.fillna(stats)] with one value per column label: a column
    without an entry, or with a NaN entry, is left as it is. *)
Definition fillna_series (df : DataFrame) (stats : list (label * option V)) : DataFrame :=
  mkDF (index df)
    (map (fun c =>
            match mjoin (snd <$> find (fun e => bool_decide (e.1 = c.1)) stats) with
            | Some v => (c.1, map (fill_cell v) c.2)
            | None => c
            end) (columns df)).

(** The cell of [df] at a row label and a column label. *)
Definition at_labels (df : DataFrame) (r c : label) : option V :=
  match find (fun e => bool_decide (e.1 = c)) (columns df), head (positions (index df) r) with
  | Some col, Some i => mjoin (col.2 !! i)
  | _, _ => None
  end.

(** [df.fillna(other)] with a frame: a missing cell takes the cell of
    [other] at the same row label and column label. *)
Definition fillna_frame (df other : DataFrame) : DataFrame :=
  mkDF (index df)
    (map (fun c =>
            (c.1, zip_with (fun r x => match x with
                                       | Some a => Some a
                                       | None => at_labels other r c.1
                                       end) (index df) c.2)) (columns df)).

(** *** duplicates *)

(** [keep='first']: a key is a duplicate when it was seen before. *)
Fixpoint duplicated_from {K} `{EqDecision K} (seen : list K) (keys : list K) : list bool :=
  match keys with
  | [] => []
  | k :: r => bool_decide (k ∈ seen) :: duplicated_from (k :: seen) r
  end.

(** The rows of [df] restricted to the columns named in [subset]. *)
Definition row_keys (df : DataFrame) (subset : list label) : list (list (option V)) :=
  let cols := filter (fun c => c.1 ∈ subset) (columns df) in
  map (fun i => map (fun c => mjoin (c.2 !! i)) cols) (seq 0 (nrows df)).

(** [df.empty]: one of the two axes has length 0. *)
Definition DataFrame_empty (df : DataFrame) : bool :=
  bool_decide (index df = []) || bool_decide (columns df = []).

(** [df.duplicated(subset)] on a frame that is not empty: [KeyError]
    when a label of [subset] is not a column; with no label at all the
    library finds nothing to unpack and raises [ValueError]. *)
Definition duplicated (df : DataFrame) (subset : list label) : res (list bool) :=
  match filter (fun l => l ∉ col_labels df) subset with
  | [] =>
      match subset with
      | [] => Raise (ValueError "not enough values to unpack (expected 2, got 0)")
      | _ => Ok (duplicated_from [] (row_keys df subset))
      end
  | diff => Raise (KeyError diff)
  end.

(** [df.drop_duplicates(subset=subset, inplace=True)]: the value the
    call returns and the caller's frame after the call.  An empty frame is
    answered at once with a copy of itself, before [subset] or [inplace]
    is looked at.  Otherwise the rows that are not flagged replace the
    caller's frame and the call returns [None]; when the flags cannot be
    computed the call raises and the frame is left as it is. *)
Definition drop_duplicates_inplace (df : DataFrame) (subset : list label)
  : res (option DataFrame) * DataFrame :=
  if DataFrame_empty df then (Ok (Some df), df)
  else
    match duplicated df subset with
    | Ok dup =>
        let keep := invert dup in
        (Ok None, mkDF (select keep (index df))
                       (map (fun c => (c.1, select keep c.2)) (columns df)))
    | Raise e => (Raise e, df)
    end.

(** [s.apply(f)]: [f] is called on the cells, one after the other;
    the first exception ends the call. *)
Definition Series_apply (f : option V -> res (option V)) (s : Series V) : res (Series V) :=
  mapM f s.

(** *** rolling windows *)

Record Rolling := mkRolling {
  obj : DataFrame;
  window : Z;
  center : bool
}.

(** [df.rolling(window=w, center=c)] *)
Definition rolling (df : DataFrame) (w : Z) (c : bool) : res Rolling :=
  if (w <? 0)%Z then Raise (ValueError "window must be an integer 0 or greater")
  else Ok (mkRolling df w c).

(** [r.transform(func)].  A rolling window has its aggregations
    ([mean], [median], [sum], [apply], [agg], ...) and no [transform]:
    the attribute lookup falls through to the column labels of the wrapped
    frame and, failing that, raises [AttributeError]; a column called
    "transform" yields another rolling window, which is not callable. *)
Definition Rolling_transform (r : Rolling) (func : string) : res DataFrame :=
  if bool_decide (LStr "transform" ∈ col_labels (obj r))
  then Raise (TypeError "'Rolling' object is not callable")
  else Raise (AttributeError "'Rolling' object has no attribute 'transform'").

End Frame.
#[global] Arguments DataFrame V : clear implicits.
#[global] Arguments Rolling V : clear implicits.
End Pandas.
Import Pandas.

(** ** Column statistics over rational cells

    The library computes the statistics in binary floating point; here
    the cells are rationals and a statistic is the exact one. *)

Module Stats.

#[global] Instance Q_eq_dec : EqDecision Q.
Proof. solve_decision. Defined.

Definition present (s : Series Q) : list Q := omap id s.

Definition total (vs : list Q) : Q := fold_right Qplus 0%Q vs.

(** [Series.mean()]: NaN on a column without values. *)
Definition mean (s : Series Q) : option Q :=
  match present s with
  | [] => None
  | vs => Some (Qred (total vs / inject_Z (Z.of_nat (length vs))))
  end.

Fixpoint insert (x : Q) (l : list Q) : list Q :=
  match l with
  | [] => [x]
  | y :: r => if Qle_bool x y then x :: l else y :: insert x r
  end.

Definition sort (l : list Q) : list Q := fold_right insert [] l.

(** [Series.median()] *)
Definition median (s : Series Q) : option Q :=
  let vs := sort (present s) in
  let n := length vs in
  if Nat.odd n then vs !! (n / 2)%nat
  else match vs !! (n / 2 - 1)%nat, vs !! (n / 2)%nat with
       | Some a, Some b => Some (Qred ((a + b) / 2))
       | _, _ => None
       end.

(** [Series.mode()]: the most frequent values, ascending. *)
Definition modes (s : Series Q) : list Q :=
  let vs := present s in
  let freq v := length (filter (fun x => x = v) vs) in
  let top := fold_right Nat.max 0%nat (map freq vs) in
  sort (remove_dups (filter (fun v => freq v = top) vs)).

(** [df.mean()] and [df.median()]: one statistic per column label. *)
Definition DataFrame_mean (df : DataFrame Q) : list (label * option Q) :=
  map (fun c => (c.1, mean c.2)) (columns df).

Definition DataFrame_median (df : DataFrame Q) : list (label * option Q) :=
  map (fun c => (c.1, median c.2)) (columns df).

(** [df.mode()]: a frame with rows 0..k-1, the modes of each column
    from the top, padded with the missing marker. *)
Definition DataFrame_mode (df : DataFrame Q) : DataFrame Q :=
  let k := fold_right Nat.max 0%nat (map (fun c => length (modes c.2)) (columns df)) in
  mkDF (map (fun i => LInt (Z.of_nat i)) (seq 0 k))
       (map (fun c => (c.1, resize k None (map Some (modes c.2)))) (columns df)).

End Stats.

(** ** class DataProcess *)

Module DataProcess.

Section Infer.
Variable F : Type.
Variable single_exact : F -> bool.

(** [infer_numeric_dtype(series)] *)
Definition infer_numeric_dtype (series : Np.TypedSeries F) : Np.dtype :=
  let fallthrough := Np.s_dtype series in
  if bool_decide (Np.kind (Np.s_dtype series) ∈ ["i"; "u"]) then
    if Np.ge (Np.s_min series) (Np.iinfo_min Np.W8)
       && Np.le (Np.s_max series) (Np.iinfo_max Np.W8) then Np.Int Np.W8
    else if Np.ge (Np.s_min series) (Np.iinfo_min Np.W16)
            && Np.le (Np.s_max series) (Np.iinfo_max Np.W16) then Np.Int Np.W16
    else if Np.ge (Np.s_min series) (Np.iinfo_min Np.W32)
            && Np.le (Np.s_max series) (Np.iinfo_max Np.W32) then Np.Int Np.W32
    else if Np.ge (Np.s_min series) (Np.iinfo_min Np.W64)
            && Np.le (Np.s_max series) (Np.iinfo_max Np.W64) then Np.Int Np.W64
    else fallthrough
  else if bool_decide (Np.kind (Np.s_dtype series) = "f") then
    if forallb single_exact (Np.s_dropna series) then Np.Float32 else Np.Float64
  else fallthrough.

End Infer.

Section Frame.
Context {V : Type} `{EqDecision V}.

(** [return df.loc[:, ~df.nunique().isin([1, df.shape[0]])]] *)
Definition remove_constant_or_unique_columns (df : DataFrame V) : DataFrame V :=
  loc_columns df (invert (isin (DataFrame_nunique df) [1%nat; nrows df])).

(** [return df.drop_duplicates(subset=columns, inplace=True)].  The
    function hands back whatever the library call returns; the result
    pairs that value with the state of the caller's frame after the
    call. *)
Definition remove_duplicate_rows_by_columns (df : DataFrame V) (columns : list label)
  : res (option (DataFrame V)) * DataFrame V :=
  drop_duplicates_inplace df columns.

End Frame.

Section Convert.
Context {V : Type} `{EqDecision V}.
(** The casts stay abstract: [astype s t] is [s.astype(t)] and
    [to_datetime s] is [pd.to_datetime(s, infer_datetime_format=True,
    errors='coerce')]; each returns the new column or raises. *)
Variable astype : Series V -> string -> res (Series V).
Variable to_datetime : Series V -> res (Series V).

(** [infer_numeric_dtype] called on one cell, which is how
    [.apply(DataProcess.infer_numeric_dtype)] calls it: the function
    starts by reading [series.dtype], and a scalar cell has no such
    attribute. *)
Definition infer_numeric_dtype_of_cell (x : option V) : res (option V) :=
  Raise (AttributeError "object has no attribute 'dtype'").

(** The body of the [try]. *)
Definition convert_column (df : DataFrame V) (col : label) (dtype : string)
  : res (DataFrame V) :=
  if bool_decide (dtype ∈ ["int"; "float"]) then
    s ← getitem df col;
    s1 ← astype s dtype;
    s2 ← Series_apply infer_numeric_dtype_of_cell s1;
    mret (setitem df col s2)
  else if bool_decide (dtype = "datetime") then
    s ← getitem df col;
    s1 ← to_datetime s;
    mret (setitem df col s1)
  else
    s ← getitem df col;
    s1 ← astype s dtype;
    mret (setitem df col s1).

(** A line printed by the [except ValueError] handler. *)
Record failure := Failed {
  failed_col : label;
  failed_dtype : string;
  failed_with : exn
}.

(** [convert_data_type(df, cols, dtype)]: the loop over [cols]; the
    result pairs what the call returns or raises with the lines printed. *)
Fixpoint convert_data_type (df : DataFrame V) (cols : list label) (dtype : string)
  : res (DataFrame V) * list failure :=
  match cols with
  | [] => (Ok df, [])
  | col :: rest =>
      match convert_column df col dtype with
      | Ok df' => convert_data_type df' rest dtype
      | Raise e =>
          if is_ValueError e
          then let '(r, out) := convert_data_type df rest dtype in
               (r, Failed col dtype e :: out)
          else (Raise e, [])
      end
  end.

End Convert.

Section Combine.
Context {V : Type}.
(** The library's join and concatenation stay abstract. *)
Variable pd_merge : DataFrame V -> DataFrame V -> list label -> string -> res (DataFrame V).
Variable pd_concat : list (DataFrame V) -> res (DataFrame V).

(** The library calls a run of [combine_dataframes] makes. *)
Inductive call :=
| Merge (on : list label) (how : string)
| Concat.

(** [combine_dataframes(df1, df2, on, how, direction)]: what the call
    returns or raises, and the library calls it made. *)
Definition combine_dataframes (df1 df2 : DataFrame V) (on : option (list label))
    (how : string) (direction : string) : res (DataFrame V) * list call :=
  if bool_decide (direction = "horizontal") then
    if truthy on
    then (pd_merge df1 df2 (or_else on []) how, [Merge (or_else on []) how])
    else (Raise (ValueError "'on' parameter must be specified for horizontal merge"), [])
  else if bool_decide (direction = "vertical") then
    (pd_concat [df1; df2], [Concat])
  else (Raise (ValueError "Invalid direction. Choose 'vertical' or 'horizontal'"), []).

End Combine.

Section Bin.
Context {V : Type} `{EqDecision V} {B L : Type}.
(** [pd_cut s bins labels] is [pd.cut(s, bins=bins, labels=labels)]:
    the binned column, or an exception. *)
Variable pd_cut : Series V -> B -> L -> res (Series V).

(** One entry of [bins_meta]. *)
Record bin_meta := BinMeta {
  bins : B;
  labels : L
}.

(** [bin_columns(df, bins_meta)]: the loop over the entries, in their
    order.  The frame is updated in place and nothing is caught: the
    result pairs what the call returns or raises with the caller's frame
    after the call. *)
Fixpoint bin_columns (df : DataFrame V) (bins_meta : list (label * bin_meta))
  : res (DataFrame V) * DataFrame V :=
  match bins_meta with
  | [] => (Ok df, df)
  | (col, meta) :: rest =>
      match s ← getitem df col; pd_cut s (bins meta) (labels meta) with
      | Ok binned => bin_columns (setitem df col binned) rest
      | Raise e => (Raise e, df)
      end
  end.

End Bin.
#[global] Arguments bin_meta B L : clear implicits.
#[global] Arguments BinMeta {B L} bins labels.
End DataProcess.

(** ** class MissingValue *)

Module MissingValue.

Section Frame.
Context {V : Type} `{EqDecision V}.

(** [remove_missing_columns(df, columns, max_missing_rate)].  The rate
    is a rational here; the rounding of binary floating point is outside
    the model. *)
Definition remove_missing_columns (df : DataFrame V) (columns : option (list label))
    (max_missing_rate : Q) : res (DataFrame V) :=
  if negb (Qle_bool 0 max_missing_rate && Qle_bool max_missing_rate 1) then
    Raise (ValueError "max_missing_rate must be between 0 and 1")
  else
    let columns := or_else columns (col_labels df) in
    if Qeq_bool max_missing_rate 1 then Ok df
    else
      let min_non_missing :=
        Py.int (inject_Z (Z.of_nat (nrows df)) * (1 - max_missing_rate)) in
      dropna_columns df min_non_missing columns.

(** [fill_na_by_custom_value(df, columns, value)] *)
Definition fill_na_by_custom_value (df : DataFrame V) (columns : option (list label))
    (value : option V) : res (DataFrame V) :=
  let columns := or_else columns (col_labels df) in
  fillna_value df value.

(** [fill_na_forward_or_backward(df, columns, method)] *)
Definition fill_na_forward_or_backward (df : DataFrame V) (columns : option (list label))
    (method : string) : res (DataFrame V) :=
  if negb (bool_decide (method ∈ ["ffill"; "bfill"])) then
    Raise (ValueError "Invalid method. Choose 'ffill', 'bfill'")
  else
    let columns := or_else columns (col_labels df) in
    fillna_method df method.

(** [fill_na_by_interpolate(df, columns, method)], over the library's
    interpolation. *)
Variable interpolate : DataFrame V -> string -> res (DataFrame V).

Definition fill_na_by_interpolate (df : DataFrame V) (columns : option (list label))
    (method : string) : res (DataFrame V) :=
  if negb (bool_decide (method ∈ ["linear"; "quadratic"; "cubic"])) then
    Raise (ValueError "Invalid method. Choose 'linear', 'quadratic', or 'cubic'")
  else
    let columns := or_else columns (col_labels df) in
    interpolate df method.

(** [fill_na_by_rolling(df, columns, method, window_size, center)] *)
Definition fill_na_by_rolling (df : DataFrame V) (columns : option (list label))
    (method : string) (window_size : option Z) (center : bool) : res (DataFrame V) :=
  if negb (bool_decide (method ∈ ["mean"; "median"; "mode"])) then
    Raise (ValueError "Invalid method. Choose 'mean', 'median', or 'mode'")
  else
    let columns := or_else columns (col_labels df) in
    let window_size := or_else_int window_size (Z.of_nat (nrows df)) in
    sub ← getitem_list df columns;
    r ← rolling df window_size center;
    stat ← Rolling_transform r method;
    mret (fillna_frame sub stat).

End Frame.

(** [fill_na_by_statistics(df, columns, method)] *)
Definition fill_na_by_statistics (df : DataFrame Q) (columns : option (list label))
    (method : string) : res (DataFrame Q) :=
  if negb (bool_decide (method ∈ ["mean"; "median"; "mode"])) then
    Raise (ValueError "Invalid method. Choose 'mean', 'median', or 'mode'")
  else
    let columns := or_else columns (col_labels df) in
    if bool_decide (method = "median") then
      Ok (fillna_series df (Stats.DataFrame_median df))
    else if bool_decide (method = "mode") then
      Ok (fillna_frame df (Stats.DataFrame_mode df))
    else Ok (fillna_series df (Stats.DataFrame_mean df)).

End MissingValue.

(** ** class FeatureSelection *)

Module FeatureSelection.
Section Frame.
Context {V : Type} `{EqDecision V}.

(** [return data[names]] *)
Definition select_columns_by_name (data : DataFrame V) (names : list label)
  : res (DataFrame V) :=
  getitem_list data names.

(** [return data.loc[:, condition(data)]].  The condition yields a
    list of booleans.  An empty list is no boolean mask for the indexer
    but a list of no labels: it selects no column, whatever the frame.  A
    list with one boolean per column is a mask; a list of any other length
    is refused by the indexer, here [None]. *)
Definition select_columns_by_condition (data : DataFrame V)
    (condition : DataFrame V -> list bool) : option (DataFrame V) :=
  let mask := condition data in
  if bool_decide (mask = []) then Some (mkDF (index data) [])
  else if bool_decide (length mask = length (columns data))
  then Some (loc_columns data mask)
  else None.

End Frame.
End FeatureSelection.

(** ** class DataImport (processors/data_import.py) *)

Module DataImport.

(** [s.endswith(suffix)] *)
Definition endswith (s suffix : string) : bool :=
  bool_decide (list_ascii_of_string suffix `suffix_of` list_ascii_of_string s).

Definition excel_extensions : list string :=
  [".xls"; ".xlsx"; ".xlsm"; ".xlsb"; ".odf"; ".ods"; ".odt"].

(** The separator of the [.txt] branch: one tab character. *)
Definition tab : string := String (Ascii.ascii_of_nat 9) EmptyString.

Section Readers.
Context {V : Type}.
(** [read_csv path sep] is [pd.read_csv(path, sep=sep)], whose default
    separator is the comma; [read_excel path] is [pd.read_excel(path)]. *)
Variable read_csv : string -> string -> res (DataFrame V).
Variable read_excel : string -> res (DataFrame V).

(** The body of the [try]: the reader call of the first branch whose
    extension matches, or no call at all. *)
Definition read_by_extension (path : string) : option (res (DataFrame V)) :=
  if endswith path ".csv" then Some (read_csv path ",")
  else if existsb (endswith path) excel_extensions then Some (read_excel path)
  else if endswith path ".txt" then Some (read_csv path tab)
  else None.

(** What the [try] makes of a reader call: the table, or the handler's
    printed exception and the [None] of the last line. *)
Definition caught (r : res (DataFrame V)) : option (DataFrame V) * list exn :=
  match r with
  | Ok df => (Some df, [])
  | Raise e => (None, [e])
  end.

(** [import_file(path, sep)]: the table or [None], and the exceptions
    the handler printed. *)
Definition import_file (path : string) (sep : option string)
  : option (DataFrame V) * list exn :=
  match read_by_extension path with
  | Some r => caught r
  | None => (None, [])
  end.

End Readers.
End DataImport.

(** ** Sample inputs *)

Module Sample.

(** A cast that rejects a column holding only the missing marker and
    leaves every other column as it is. *)
Definition picky_cast (s : Series Z) (t : string) : res (Series Z) :=
  if bool_decide (s = [None]) then Raise (ValueError "cannot convert") else Ok s.

(** A frame built from a nested list: rows and columns are both
    labelled 0 and 1; column 0 misses one of its two cells. *)
Definition square : DataFrame Z :=
  mkDF [LInt 0; LInt 1]
       [(LInt 0, [Some 1%Z; None]); (LInt 1, [Some 2%Z; Some 3%Z])].

(** Ten rows labelled 0 to 9 and one column with three missing cells. *)
Definition ten_labels : list label :=
  map LInt [0; 1; 2; 3; 4; 5; 6; 7; 8; 9]%Z.

Definition ten_rows : DataFrame Z :=
  mkDF ten_labels
       [(LStr "x", [Some 1%Z; Some 2%Z; None; Some 4%Z; Some 5%Z;
                    None; Some 7%Z; Some 8%Z; None; Some 10%Z])].

(** Two columns, each with one missing cell. *)
Definition two_columns : DataFrame Z :=
  mkDF [LInt 0; LInt 1]
       [(LStr "a", [Some 1%Z; None]); (LStr "b", [None; Some 2%Z])].

Definition gaps : DataFrame Q :=
  mkDF [LInt 0; LInt 1; LInt 2]
       [(LStr "a", [Some 1%Q; None; Some 3%Q]);
        (LStr "b", [Some 4%Q; Some 4%Q; Some 4%Q])].

(** One column holding 1, two gaps and 4. *)
Definition gap_run : DataFrame Z :=
  mkDF [LInt 0; LInt 1; LInt 2; LInt 3]
       [(LStr "a", [Some 1%Z; None; None; Some 4%Z])].

(** Two rows that agree on their only column. *)
Definition twins : DataFrame Z :=
  mkDF [LInt 0; LInt 1] [(LStr "a", [Some 1%Z; Some 1%Z])].

(** A column whose last cell is missing and whose only mode is 1. *)
Definition trailing_gap : DataFrame Q :=
  mkDF [LInt 0; LInt 1; LInt 2]
       [(LStr "a", [Some 1%Q; Some 1%Q; None])].

End Sample.

(** ** Reference notions the properties are stated against *)

Module Reference.

Section Widths.
Variable F : Type.

(** The signed width [w] covers the observed minimum and maximum of
    the column. *)
Definition covers (w : Np.width) (s : Np.TypedSeries F) : Prop :=
  exists lo hi, Np.s_min s = Some lo /\ Np.s_max s = Some hi
                /\ (Np.iinfo_min w <= lo)%Z /\ (hi <= Np.iinfo_max w)%Z.

End Widths.
#[global] Arguments covers {F} w s.

Section Fill.
Context {V : Type}.

(** The nearest non-missing value before row [i], and after it. *)
Definition nearest_preceding (s : Series V) (i : nat) : option V :=
  last (omap id (take i s)).

Definition nearest_following (s : Series V) (i : nat) : option V :=
  head (omap id (drop (S i) s)).

(** A cell after a fill: its own value when it has one, the donor's
    otherwise. *)
Definition filled_with (donor : option V) (x : option V) : option V :=
  match x with
  | Some v => Some v
  | None => donor
  end.

End Fill.

Section Convert.
Context {V : Type} `{EqDecision V}.
Variable astype : Series V -> string -> res (Series V).
Variable to_datetime : Series V -> res (Series V).

(** Along the loop of [convert_data_type], every column whose
    conversion fails does so with a [ValueError]. *)
Fixpoint only_value_errors (df : DataFrame V) (cols : list label) (dtype : string) : Prop :=
  match cols with
  | [] => True
  | col :: rest =>
      match DataProcess.convert_column astype to_datetime df col dtype with
      | Ok df' => only_value_errors df' rest dtype
      | Raise e => is_ValueError e = true /\ only_value_errors df rest dtype
      end
  end.

End Convert.

(** The two configurations [combine_dataframes] refuses: a horizontal
    combination without join columns, and a direction that is neither of
    the two. *)
Definition rejected (on : option (list label)) (direction : string) : Prop :=
  (direction = "horizontal" /\ truthy on = false)
  \/ (direction <> "horizontal" /\ direction <> "vertical").

End Reference.

(** ** Lists, masks and filters *)

Module ListFacts.

(** Selecting by a mask computed from the elements is filtering. *)
Lemma select_map_filter {A} (f : A -> bool) (l : list A) :
  select (map f l) l = filter (fun c => f c = true) l.
Proof.
  unfold select. induction l as [|c l IH]; [done|].
  cbn [map zip zip_with]. rewrite !filter_cons. cbn [fst snd].
  destruct (decide (f c = true)); cbn [map]; by rewrite IH.
Qed.

Lemma filter_twice {A} (P : A -> Prop) `{!forall x, Decision (P x)} (l : list A) :
  filter P (filter P l) = filter P l.
Proof.
  induction l as [|x l IH]; [done|].
  rewrite filter_cons. destruct (decide (P x)) as [Hx|Hx]; [|done].
  rewrite filter_cons. destruct (decide (P x)); [by rewrite IH | done].
Qed.

Lemma filter_none {A} (P : A -> Prop) `{!forall x, Decision (P x)} (l : list A) :
  (forall x, x ∈ l -> ~ P x) -> filter P l = [].
Proof.
  induction l as [|x l IH]; intros Hl; [done|].
  rewrite filter_cons. destruct (decide (P x)) as [Hx|Hx].
  - exfalso. apply (Hl x); [left | done].
  - apply IH. intros y Hy. apply Hl. by right.
Qed.

Lemma filter_nil_inv {A} (P : A -> Prop) `{!forall x, Decision (P x)} (l : list A) :
  filter P l = [] -> forall x, x ∈ l -> ~ P x.
Proof.
  intros Hnil x Hx HP.
  assert (Hin : x ∈ filter P l) by (apply list_elem_of_filter; done).
  rewrite Hnil in Hin. by apply not_elem_of_nil in Hin.
Qed.

(** The flag of a key says whether the key occurred earlier. *)
Lemma duplicated_from_earlier {K} `{EqDecision K} (keys seen : list K) :
  duplicated_from seen keys
  = imap (fun i k => bool_decide (k ∈ take i keys ++ seen)) keys.
Proof.
  revert seen. induction keys as [|k0 keys IH]; intros seen; [done|].
  cbn [duplicated_from imap take app]. f_equal.
  rewrite IH. apply imap_ext. intros i k _. cbn [compose take].
  apply bool_decide_ext. rewrite !elem_of_app, !elem_of_cons. tauto.
Qed.

End ListFacts.

(** ** Properties of class DataProcess *)

Module DataProcessFacts.
Import DataProcess Reference ListFacts.

Section Frame.
Context {V : Type} `{EqDecision V}.

Lemma remove_constant_or_unique_columns_filter (df : DataFrame V) :
  remove_constant_or_unique_columns df
  = mkDF (index df)
      (filter (fun c => negb (bool_decide (nunique c.2 ∈ [1%nat; nrows df])) = true)
              (columns df)).
Proof.
  unfold remove_constant_or_unique_columns, loc_columns, invert, isin, DataFrame_nunique.
  rewrite !map_map. f_equal.
  apply (select_map_filter
           (fun c => negb (bool_decide (nunique c.2 ∈ [1%nat; nrows df])))).
Qed.

(** C9. Dropping the constant and the fully unique columns twice gives
    the same frame as dropping them once: the first pass leaves the row
    count and the surviving columns untouched, so the second pass drops
    nothing. *)
Theorem remove_constant_or_unique_columns_idempotent (df : DataFrame V) :
  remove_constant_or_unique_columns (remove_constant_or_unique_columns df)
  = remove_constant_or_unique_columns df.
Proof.
  rewrite (remove_constant_or_unique_columns_filter (remove_constant_or_unique_columns df)).
  rewrite (remove_constant_or_unique_columns_filter df).
  unfold nrows. cbn [index columns]. f_equal.
  apply (filter_twice
           (fun c => negb (bool_decide (nunique c.2 ∈ [1%nat; length (index df)])) = true)).
Qed.

Lemma DataFrame_empty_false (df : DataFrame V) :
  index df <> [] -> columns df <> [] -> DataFrame_empty df = false.
Proof.
  intros Hrows Hcols. unfold DataFrame_empty.
  by rewrite (bool_decide_eq_false_2 _ Hrows), (bool_decide_eq_false_2 _ Hcols).
Qed.

(** C7, as the code has it. On a frame that has rows and columns the
    call never hands a frame back.  When the column list is not empty and
    its labels are columns of the frame, the call returns the absent value
    and the deduplication has happened in the caller's frame: a row stays
    when no earlier row agrees with it on the listed columns.  With an
    empty list the call raises a value error, with a label that is no
    column a key error naming the labels that are no columns; in both
    cases the caller's frame is left as it is. *)
Theorem remove_duplicate_rows_by_columns_returns_none
    (df : DataFrame V) (cols : list label) :
  index df <> [] -> columns df <> [] ->
  (forall t, (remove_duplicate_rows_by_columns df cols).1 <> Ok (Some t))
  /\ (cols <> [] -> cols ⊆ col_labels df ->
      let keys := row_keys df cols in
      let keep := imap (fun i k => negb (bool_decide (k ∈ take i keys))) keys in
      remove_duplicate_rows_by_columns df cols
      = (Ok None,
         mkDF (select keep (index df))
              (map (fun c => (c.1, select keep c.2)) (columns df))))
  /\ (cols = [] ->
      exists msg, remove_duplicate_rows_by_columns df cols = (Raise (ValueError msg), df))
  /\ (~ cols ⊆ col_labels df ->
      exists keys, remove_duplicate_rows_by_columns df cols = (Raise (KeyError keys), df)
                   /\ forall l, l ∈ keys <-> l ∈ cols /\ l ∉ col_labels df).
Proof.
  intros Hrows Hcols.
  unfold remove_duplicate_rows_by_columns, drop_duplicates_inplace.
  rewrite (DataFrame_empty_false df Hrows Hcols).
  split; [|split; [|split]].
  - intros t. destruct (duplicated df cols); cbn [fst]; congruence.
  - intros Hne Hsub. cbv zeta. unfold duplicated.
    rewrite (filter_none (fun l => l ∉ col_labels df) cols)
      by (intros x Hx Hn; apply Hn, Hsub, Hx).
    destruct cols as [|c0 cols0]; [done|].
    rewrite duplicated_from_earlier.
    assert (Hkeep : invert (imap (fun i k => bool_decide
                                     (k ∈ take i (row_keys df (c0 :: cols0)) ++ []))
                              (row_keys df (c0 :: cols0)))
                    = imap (fun i k => negb (bool_decide
                                     (k ∈ take i (row_keys df (c0 :: cols0)))))
                        (row_keys df (c0 :: cols0))).
    { unfold invert.
      change (map negb ?l) with (negb <$> l). rewrite fmap_imap.
      apply imap_ext. intros i k _. cbn [compose]. by rewrite app_nil_r. }
    by rewrite Hkeep.
  - intros ->. unfold duplicated. rewrite filter_nil. eauto.
  - intros Hno. unfold duplicated.
    destruct (filter (fun l => l ∉ col_labels df) cols) as [|m ms] eqn:Hf.
    + exfalso. apply Hno. intros x Hx.
      destruct (decide (x ∈ col_labels df)) as [|Hn]; [done|].
      by apply (filter_nil_inv _ _ Hf x Hx) in Hn.
    + exists (m :: ms). split; [done|].
      intros l. rewrite <- Hf, list_elem_of_filter. tauto.
Qed.

Lemma nunique_single (x : option V) :
  nunique [x] = match x with Some _ => 1%nat | None => 0%nat end.
Proof. by destruct x. Qed.

(** C10, as the code has it. On a frame with exactly one row the
    columns that survive are exactly those whose single cell is missing:
    such a column has no distinct value at all, so its count is neither 1
    nor the row count.  When no cell is missing, no column is left. *)
Theorem single_row_keeps_missing_cells (df : DataFrame V) :
  wf df -> nrows df = 1%nat ->
  remove_constant_or_unique_columns df
  = mkDF (index df) (filter (fun c => c.2 = [None]) (columns df))
  /\ (Forall (fun c => c.2 <> [None]) (columns df) ->
      columns (remove_constant_or_unique_columns df) = []).
Proof.
  intros Hwf Hn.
  assert (Heq : remove_constant_or_unique_columns df
                = mkDF (index df) (filter (fun c => c.2 = [None]) (columns df))).
  { rewrite remove_constant_or_unique_columns_filter. f_equal.
    rewrite Hn. unfold wf, nrows in *. rewrite Hn in Hwf. clear Hn.
    induction (columns df) as [|[l s] cols IH]; [done|].
    apply Forall_cons_1 in Hwf as [Hs Hcols]. cbn [snd] in Hs.
    rewrite !filter_cons, (IH Hcols). cbn [snd]. clear IH Hcols.
    destruct s as [|x [|y s]]; try discriminate Hs.
    rewrite nunique_single. destruct x as [v|].
    - destruct (decide (negb (bool_decide (1%nat ∈ [1%nat; 1%nat])) = true)) as [Hd|Hd];
        [vm_compute in Hd; discriminate|].
      destruct (decide ([Some v] = [None])); [discriminate | done].
    - destruct (decide (negb (bool_decide (0%nat ∈ [1%nat; 1%nat])) = true)) as [Hd|Hd];
        [|exfalso; apply Hd; by vm_compute].
      destruct (decide ([@None V] = [None])); done. }
  split; [exact Heq|].
  intros Hall. rewrite Heq. cbn [columns]. clear Heq.
  induction Hall as [|c cols Hc Hcols IH]; [done|].
  rewrite filter_cons. destruct (decide (c.2 = [None])); [done | exact IH].
Qed.

End Frame.

Section Combine.
Context {V : Type}.
Variable pd_merge : DataFrame V -> DataFrame V -> list label -> string -> res (DataFrame V).
Variable pd_concat : list (DataFrame V) -> res (DataFrame V).

(** C8. [combine_dataframes] raises its configuration error, without
    any library call, in exactly two cases: the direction is horizontal
    and the join columns are absent (none, or an empty list), or the
    direction is neither horizontal nor vertical.  In every other case
    it hands over to the join or to the concatenation; in particular no
    join is attempted without join columns. *)
Theorem combine_dataframes_configuration_errors
    (df1 df2 : DataFrame V) (on : option (list label)) (how direction : string) :
  (direction = "horizontal" -> truthy on = false ->
   combine_dataframes pd_merge pd_concat df1 df2 on how direction
   = (Raise (ValueError "'on' parameter must be specified for horizontal merge"), []))
  /\ (direction <> "horizontal" -> direction <> "vertical" ->
      combine_dataframes pd_merge pd_concat df1 df2 on how direction
      = (Raise (ValueError "Invalid direction. Choose 'vertical' or 'horizontal'"), []))
  /\ ((combine_dataframes pd_merge pd_concat df1 df2 on how direction).2 = []
      <-> rejected on direction)
  /\ (~ rejected on direction ->
      combine_dataframes pd_merge pd_concat df1 df2 on how direction
      = (pd_merge df1 df2 (or_else on []) how, [Merge (or_else on []) how])
      \/ combine_dataframes pd_merge pd_concat df1 df2 on how direction
         = (pd_concat [df1; df2], [Concat])).
Proof.
  unfold combine_dataframes, rejected.
  destruct (decide (direction = "horizontal")) as [Hh|Hh];
    [rewrite (bool_decide_eq_true_2 _ Hh); destruct (truthy on) eqn:Hon
    |rewrite (bool_decide_eq_false_2 _ Hh);
     destruct (decide (direction = "vertical")) as [Hv|Hv];
     [rewrite (bool_decide_eq_true_2 _ Hv) | rewrite (bool_decide_eq_false_2 _ Hv)]];
    cbn [snd]; repeat split;
    try congruence; try tauto;
    try (intros [[? ?]|[? ?]]; congruence).
Qed.

End Combine.

Section Convert.
Context {V : Type} `{EqDecision V}.
Variable astype : Series V -> string -> res (Series V).
Variable to_datetime : Series V -> res (Series V).

Lemma is_ValueError_inv (e : exn) :
  is_ValueError e = true -> exists msg, e = ValueError msg.
Proof. destruct e; try discriminate. eauto. Qed.

(** C6, as the code has it. The handler catches value errors and
    nothing else.  A column whose conversion raises a value error is
    logged and skipped and the loop goes on with the rest; the call
    returns the frame exactly when every failing column fails with a value
    error, and every line it printed is for a listed column and a value
    error.  Any other exception (an absent column, a type error, an
    attribute error) leaves the loop and the call. *)
Theorem convert_data_type_catches_value_errors
    (df : DataFrame V) (cols : list label) (dtype : string) :
  (forall col rest msg,
     convert_column astype to_datetime df col dtype = Raise (ValueError msg) ->
     convert_data_type astype to_datetime df (col :: rest) dtype
     = ((convert_data_type astype to_datetime df rest dtype).1,
        Failed col dtype (ValueError msg)
          :: (convert_data_type astype to_datetime df rest dtype).2))
  /\ (only_value_errors astype to_datetime df cols dtype ->
      exists df' out,
        convert_data_type astype to_datetime df cols dtype = (Ok df', out)
        /\ Forall (fun f => failed_col f ∈ cols /\ is_ValueError (failed_with f) = true) out)
  /\ (~ only_value_errors astype to_datetime df cols dtype ->
      exists e out,
        convert_data_type astype to_datetime df cols dtype = (Raise e, out)
        /\ is_ValueError e = false).
Proof.
  split.
  { intros col rest msg Hcol. cbn [convert_data_type]. rewrite Hcol. cbn [is_ValueError].
    by destruct (convert_data_type astype to_datetime df rest dtype). }
  revert df. induction cols as [|col rest IH]; intros df.
  { cbn. split; [intros _; by exists df, [] | tauto]. }
  cbn [convert_data_type only_value_errors].
  destruct (convert_column astype to_datetime df col dtype) as [df1|e].
  - destruct (IH df1) as [IHok IHraise]. split.
    + intros Hove. destruct (IHok Hove) as (df' & out & Heq & Hout).
      exists df', out. split; [done|].
      eapply Forall_impl; [exact Hout|]. intros f [? ?]. split; [by right | done].
    + exact IHraise.
  - destruct (IH df) as [IHok IHraise].
    destruct (is_ValueError e) eqn:He.
    + split.
      * intros [_ Hove]. destruct (IHok Hove) as (df' & out & Heq & Hout).
        rewrite Heq. exists df', (Failed col dtype e :: out). split; [done|].
        constructor; [split; [left | done]|].
        eapply Forall_impl; [exact Hout|]. intros f [? ?]. split; [by right | done].
      * intros Hno. destruct IHraise as (e' & out & Heq & He'); [tauto|].
        rewrite Heq. by exists e', (Failed col dtype e :: out).
    + split; [intros [? _]; congruence|].
      intros _. by exists e, [].
Qed.

End Convert.

Section Infer.
Variable F : Type.
Variable single_exact : F -> bool.

Lemma iinfo_values :
  Np.iinfo_min Np.W8 = (-128)%Z /\ Np.iinfo_max Np.W8 = 127%Z
  /\ Np.iinfo_min Np.W16 = (-32768)%Z /\ Np.iinfo_max Np.W16 = 32767%Z
  /\ Np.iinfo_min Np.W32 = (-2147483648)%Z /\ Np.iinfo_max Np.W32 = 2147483647%Z
  /\ Np.iinfo_min Np.W64 = (-9223372036854775808)%Z
  /\ Np.iinfo_max Np.W64 = 9223372036854775807%Z.
Proof. repeat split; reflexivity. Qed.

Lemma fold_min_spec (l : list Z) (z : Z) :
  (forall b : Z, b <= fold_left Z.min l z <-> (forall x, x ∈ z :: l -> b <= x))%Z.
Proof.
  revert z. induction l as [|y l IH]; intros z b; cbn [fold_left].
  - split; [intros Hb x Hx; apply list_elem_of_singleton in Hx; by subst
           | intros Hb; apply Hb; left].
  - rewrite IH. split; intros Hb x Hx.
    + assert (b <= Z.min z y)%Z by (apply Hb; left).
      apply elem_of_cons in Hx as [->|Hx]; [lia|].
      apply elem_of_cons in Hx as [->|Hx]; [lia|]. apply Hb. by right.
    + apply elem_of_cons in Hx as [->|Hx].
      * assert (b <= z)%Z by (apply Hb; left).
        assert (b <= y)%Z by (apply Hb; right; left). lia.
      * apply Hb. by do 2 right.
Qed.

Lemma fold_max_spec (l : list Z) (z : Z) :
  (forall b : Z, fold_left Z.max l z <= b <-> (forall x, x ∈ z :: l -> x <= b))%Z.
Proof.
  revert z. induction l as [|y l IH]; intros z b; cbn [fold_left].
  - split; [intros Hb x Hx; apply list_elem_of_singleton in Hx; by subst
           | intros Hb; apply Hb; left].
  - rewrite IH. split; intros Hb x Hx.
    + assert (Z.max z y <= b)%Z by (apply Hb; left).
      apply elem_of_cons in Hx as [->|Hx]; [lia|].
      apply elem_of_cons in Hx as [->|Hx]; [lia|]. apply Hb. by right.
    + apply elem_of_cons in Hx as [->|Hx].
      * assert (z <= b)%Z by (apply Hb; left).
        assert (y <= b)%Z by (apply Hb; right; left). lia.
      * apply Hb. by do 2 right.
Qed.

(** Covering the observed minimum and maximum is covering every value
    of a non-empty integer column. *)
Lemma covers_all_values (w : Np.width) (d : Np.dtype) (z : Z) (l : list Z) :
  covers w (Np.mkSeries (F:=F) d (Np.Integers (z :: l)))
  <-> (forall x, x ∈ z :: l -> Np.iinfo_min w <= x <= Np.iinfo_max w)%Z.
Proof.
  unfold covers, Np.s_min, Np.s_max. cbn [Np.s_data]. split.
  - intros (lo & hi & [= <-] & [= <-] & Hlo & Hhi) x Hx. split.
    + by apply (proj1 (fold_min_spec l z _) Hlo).
    + by apply (proj1 (fold_max_spec l z _) Hhi).
  - intros Hall. eexists _, _. repeat split.
    + apply fold_min_spec. intros x Hx. by apply Hall.
    + apply fold_max_spec. intros x Hx. by apply Hall.
Qed.

(** C2, as the code has it. For an integer-kind column whose observed
    minimum and maximum lie in the signed 64-bit range, the result is the
    signed type of the smallest width among 8, 16, 32 and 64 bits that
    covers both; for any other integer-kind column (an empty one, or an
    unsigned 64-bit one reaching past the signed range) no branch applies
    and the dtype of the column comes back unchanged. *)
Theorem infer_numeric_dtype_smallest_width (s : Np.TypedSeries F) :
  Np.kind (Np.s_dtype s) ∈ ["i"; "u"] ->
  (covers Np.W64 s ->
   exists w, infer_numeric_dtype F single_exact s = Np.Int w
             /\ covers w s
             /\ forall w', covers w' s -> (Np.bits w <= Np.bits w')%Z)
  /\ (~ covers Np.W64 s -> infer_numeric_dtype F single_exact s = Np.s_dtype s).
Proof.
  intros Hkind. unfold infer_numeric_dtype.
  rewrite (bool_decide_eq_true_2 _ Hkind).
  destruct iinfo_values as (m8 & M8 & m16 & M16 & m32 & M32 & m64 & M64).
  split.
  - intros (lo & hi & Hlo & Hhi & Hge & Hle).
    rewrite Hlo, Hhi. unfold Np.ge, Np.le.
    assert (Hcov : forall w', covers w' s ->
                     (Np.iinfo_min w' <= lo /\ hi <= Np.iinfo_max w')%Z).
    { intros w' (lo' & hi' & Hlo' & Hhi' & ? & ?).
      rewrite Hlo in Hlo'. rewrite Hhi in Hhi'.
      injection Hlo' as <-. injection Hhi' as <-. done. }
    assert (Hmk : forall w', (Np.iinfo_min w' <= lo)%Z -> (hi <= Np.iinfo_max w')%Z ->
                     covers w' s).
    { intros w' ? ?. by exists lo, hi. }
    rewrite m8, M8, m16, M16, m32, M32, m64, M64 in *.
    repeat match goal with
           | |- context [if ?b && ?c then _ else _] =>
               let E1 := fresh "E" in let E2 := fresh "E" in
               destruct b eqn:E1; destruct c eqn:E2; cbn [andb]
           end;
      repeat match goal with
             | E : (_ <=? _)%Z = true |- _ => apply Z.leb_le in E
             | E : (_ <=? _)%Z = false |- _ => apply Z.leb_gt in E
             end;
      try lia;
      (eexists; split; [reflexivity|]; split;
       [apply Hmk; rewrite ?m8, ?M8, ?m16, ?M16, ?m32, ?M32, ?m64, ?M64; lia
       |intros [] Hw; apply Hcov in Hw;
        rewrite ?m8, ?M8, ?m16, ?M16, ?m32, ?M32, ?m64, ?M64 in Hw;
        cbn [Np.bits]; lia]).
  - intros Hno.
    assert (Hw : forall w, Np.ge (Np.s_min s) (Np.iinfo_min w)
                           && Np.le (Np.s_max s) (Np.iinfo_max w) = false).
    { intros w. apply not_true_is_false. intros [Hg Hl]%andb_true_iff.
      apply Hno. unfold Np.ge, Np.le in Hg, Hl.
      destruct (Np.s_min s) as [lo|] eqn:Hlo; [|discriminate].
      destruct (Np.s_max s) as [hi|] eqn:Hhi; [|discriminate].
      apply Z.leb_le in Hg, Hl. exists lo, hi.
      split; [done|]. split; [done|].
      destruct w; rewrite ?m8, ?M8, ?m16, ?M16, ?m32, ?M32, ?m64, ?M64 in *; lia. }
    by rewrite !Hw.
Qed.

End Infer.

(** The column [-5, 0, 100] narrows to the 8-bit signed type. *)
Lemma infer_numeric_dtype_smallest_width_witness :
  exists w,
    infer_numeric_dtype unit (fun _ => true)
      (Np.mkSeries (Np.Int Np.W64) (Np.Integers [-5; 0; 100]%Z)) = Np.Int w
    /\ covers w (Np.mkSeries (F:=unit) (Np.Int Np.W64) (Np.Integers [-5; 0; 100]%Z))
    /\ forall w', covers w' (Np.mkSeries (F:=unit) (Np.Int Np.W64)
                              (Np.Integers [-5; 0; 100]%Z)) ->
                  (Np.bits w <= Np.bits w')%Z.
Proof.
  refine (proj1 (infer_numeric_dtype_smallest_width unit (fun _ => true)
                   (Np.mkSeries (Np.Int Np.W64) (Np.Integers [-5; 0; 100]%Z)) _) _).
  - by vm_compute; left.
  - exists (-5)%Z, 100%Z. vm_compute. repeat split; congruence.
Defined.

(** The two columns of the specification. *)
Example infer_narrow_int8 :
  infer_numeric_dtype unit (fun _ => true)
    (Np.mkSeries (Np.Int Np.W64) (Np.Integers [-5; 0; 100]%Z)) = Np.Int Np.W8.
Proof. reflexivity. Qed.

Example infer_narrow_int32 :
  infer_numeric_dtype unit (fun _ => true)
    (Np.mkSeries (Np.Int Np.W64) (Np.Integers [-5; 0; 40000]%Z)) = Np.Int Np.W32.
Proof. reflexivity. Qed.

(** C2, as stated, fails: an unsigned 64-bit column holding 2^64 - 1
    is of integer kind, the value is one the dtype can hold, and the
    result is none of the four signed types. *)
Lemma infer_numeric_dtype_uint64_unchanged :
  Np.kind (Np.UInt Np.W64) ∈ ["i"; "u"]
  /\ Np.in_range (Np.UInt Np.W64) 18446744073709551615%Z
  /\ infer_numeric_dtype unit (fun _ => true)
       (Np.mkSeries (Np.UInt Np.W64) (Np.Integers [18446744073709551615%Z]))
     = Np.UInt Np.W64
  /\ forall w, infer_numeric_dtype unit (fun _ => true)
                 (Np.mkSeries (Np.UInt Np.W64) (Np.Integers [18446744073709551615%Z]))
               <> Np.Int w.
Proof.
  split; [by right; left|]. split; [by vm_compute|]. split; [reflexivity|].
  intros w. discriminate.
Qed.

(** Rows 0 and 1 agree on column "a": the call returns nothing and the
    caller's frame has lost row 1. *)
Lemma remove_duplicate_rows_by_columns_returns_none_witness :
  remove_duplicate_rows_by_columns
    (mkDF [LInt 0; LInt 1; LInt 2]
          [(LStr "a", [Some 1%Z; Some 1%Z; Some 2%Z]);
           (LStr "b", [Some 5%Z; Some 6%Z; Some 7%Z])])
    [LStr "a"]
  = (Ok None,
     mkDF [LInt 0; LInt 2]
          [(LStr "a", [Some 1%Z; Some 2%Z]); (LStr "b", [Some 5%Z; Some 7%Z])]).
Proof.
  refine (proj1 (proj2 (remove_duplicate_rows_by_columns_returns_none
                          (mkDF [LInt 0; LInt 1; LInt 2]
                                [(LStr "a", [Some 1%Z; Some 1%Z; Some 2%Z]);
                                 (LStr "b", [Some 5%Z; Some 6%Z; Some 7%Z])])
                          [LStr "a"] _ _)) _ _).
  - discriminate.
  - discriminate.
  - discriminate.
  - intros x Hx. apply list_elem_of_singleton in Hx. subst x. left.
Defined.

(** C7, as stated, fails: on a frame whose two rows agree on column
    "a", a column list that names no column of the frame makes the call
    raise a key error, and an empty column list makes it raise a value
    error.  Neither call yields the absent value, and the duplicate row is
    still in the caller's frame. *)
Lemma remove_duplicate_rows_by_columns_raises :
  remove_duplicate_rows_by_columns Sample.twins [LStr "b"]
  = (Raise (KeyError [LStr "b"]), Sample.twins)
  /\ remove_duplicate_rows_by_columns Sample.twins []
     = (Raise (ValueError "not enough values to unpack (expected 2, got 0)"), Sample.twins)
  /\ remove_duplicate_rows_by_columns Sample.twins [LStr "a"]
     = (Ok None, mkDF [LInt 0] [(LStr "a", [Some 1%Z])]).
Proof. repeat split. Qed.

(** A horizontal combination without join columns is refused before
    the join is reached, whatever the join would do. *)
Lemma combine_dataframes_configuration_errors_witness :
  combine_dataframes (fun df1 _ _ _ => Ok df1) (fun _ => Raise (TypeError "unused"))
    (mkDF [LInt 0] [(LStr "k", [Some 1%Z])]) (mkDF [LInt 0] [(LStr "k", [Some 1%Z])])
    None "outer" "horizontal"
  = (Raise (ValueError "'on' parameter must be specified for horizontal merge"), []).
Proof.
  refine (proj1 (combine_dataframes_configuration_errors
                   (fun df1 _ _ _ => Ok df1) (fun _ => Raise (TypeError "unused"))
                   (mkDF [LInt 0] [(LStr "k", [Some 1%Z])])
                   (mkDF [LInt 0] [(LStr "k", [Some 1%Z])])
                   None "outer" "horizontal") _ _); reflexivity.
Defined.

(** Column "a" fails with a value error, column "b" is still
    converted, and the call returns the frame. *)
Lemma convert_data_type_catches_value_errors_witness :
  exists df' out,
    convert_data_type Sample.picky_cast (fun s => Ok s)
      (mkDF [LInt 0] [(LStr "a", [None]); (LStr "b", [Some 1%Z])])
      [LStr "a"; LStr "b"] "str" = (Ok df', out)
    /\ Forall (fun f => failed_col f ∈ [LStr "a"; LStr "b"]
                        /\ is_ValueError (failed_with f) = true) out.
Proof.
  refine (proj1 (proj2 (convert_data_type_catches_value_errors Sample.picky_cast (fun s => Ok s)
                          (mkDF [LInt 0] [(LStr "a", [None]); (LStr "b", [Some 1%Z])])
                          [LStr "a"; LStr "b"] "str")) _).
  vm_compute. split; [reflexivity | exact I].
Defined.

(** C6, as stated, fails: the label "b" is no column of the frame, the
    lookup raises a key error inside the [try], the handler does not
    catch it, and the call raises before column "a" is reached.  The casts
    are never called. *)
Lemma convert_data_type_key_error_escapes :
  convert_data_type (fun s _ => Ok s) (fun s => Ok s)
    (mkDF [LInt 0] [(LStr "a", [Some 1%Z])]) [LStr "b"; LStr "a"] "str"
  = (Raise (KeyError [LStr "b"]), []).
Proof. reflexivity. Qed.

(** With the targets "int" and "float" a column that was cast
    successfully is handed cell by cell to [infer_numeric_dtype]; the
    attribute error of the first cell is not caught either. *)
Example convert_data_type_int_target_raises :
  convert_data_type (fun s _ => Ok s) (fun s => Ok s)
    (mkDF [LInt 0] [(LStr "a", [Some 1%Z])]) [LStr "a"] "int"
  = (Raise (AttributeError "object has no attribute 'dtype'"), []).
Proof. reflexivity. Qed.

(** A one-row frame with a value in its only cell loses the column. *)
Lemma single_row_keeps_missing_cells_witness :
  remove_constant_or_unique_columns (mkDF [LInt 0] [(LStr "a", [Some 7%Z])])
  = mkDF [LInt 0] [].
Proof.
  refine (proj1 (single_row_keeps_missing_cells
                   (mkDF [LInt 0] [(LStr "a", [Some 7%Z])]) _ _)).
  - repeat constructor.
  - reflexivity.
Defined.

(** C10, as stated, fails: a one-row frame whose only cell is missing
    keeps its column, although the frame is well formed and has one row. *)
Lemma single_row_missing_cell_survives :
  wf (mkDF [LInt 0] [(LStr "a", [@None Z])])
  /\ nrows (mkDF [LInt 0] [(LStr "a", [@None Z])]) = 1%nat
  /\ columns (remove_constant_or_unique_columns (mkDF [LInt 0] [(LStr "a", [@None Z])]))
     = [(LStr "a", [None])].
Proof. split; [repeat constructor | split; reflexivity]. Qed.

End DataProcessFacts.

(** ** Properties of class MissingValue *)

Module MissingValueFacts.
Import MissingValue Reference ListFacts.

Section Frame.
Context {V : Type} `{EqDecision V}.

(** On a non-negative rational [int] is the floor. *)
Lemma int_floor (q : Q) : (0 <= q)%Q -> Py.int q = Qfloor q.
Proof.
  destruct q as [n d]. unfold Qle, Py.int, Qfloor. cbn [Qnum Qden].
  intros Hq. apply Z.quot_div_nonneg; lia.
Qed.

(** Past the two guards, the call is the column drop with the
    truncated threshold. *)
Lemma remove_missing_columns_dropna
    (df : DataFrame V) (cols : option (list label)) (r : Q) :
  (0 <= r)%Q -> (r < 1)%Q ->
  remove_missing_columns df cols r
  = dropna_columns df (Qfloor (inject_Z (Z.of_nat (nrows df)) * (1 - r)))
      (or_else cols (col_labels df)).
Proof.
  intros H0 H1. unfold remove_missing_columns.
  rewrite (proj2 (Qle_bool_iff 0 r) H0).
  rewrite (proj2 (Qle_bool_iff r 1) (Qlt_le_weak _ _ H1)). cbn [andb negb].
  destruct (Qeq_bool r 1) eqn:Heq.
  - apply Qeq_bool_eq in Heq. rewrite Heq in H1. by apply Qlt_irrefl in H1.
  - rewrite int_floor; [done|].
    apply Qmult_le_0_compat.
    + change 0%Q with (inject_Z 0). rewrite <- Zle_Qle. lia.
    + apply (proj1 (Qle_minus_iff r 1)). by apply Qlt_le_weak.
Qed.

(** *** Forward and backward fill *)

Lemma ffill_from_lookup (s : Series V) (carried : option V) (i : nat) :
  ffill_from carried s !! i
  = filled_with (match nearest_preceding s i with
                 | Some v => Some v
                 | None => carried
                 end) <$> s !! i.
Proof.
  unfold nearest_preceding.
  revert carried i. induction s as [|x s IH]; intros carried i; [done|].
  destruct i as [|i].
  - destruct x; reflexivity.
  - destruct x as [v|]; cbn [ffill_from lookup list_lookup take omap list_omap id];
      rewrite IH; [|done].
    rewrite last_cons. by destruct (last (omap id (take i s))).
Qed.

Lemma bfill_head (s : Series V) : mjoin (head (bfill s)) = head (omap id s).
Proof.
  induction s as [|x s IH]; [done|].
  cbn [bfill]. destruct x as [v|]; [done|]. exact IH.
Qed.

Lemma bfill_lookup (s : Series V) (i : nat) :
  bfill s !! i = filled_with (nearest_following s i) <$> s !! i.
Proof.
  unfold nearest_following.
  revert i. induction s as [|x s IH]; intros i; [done|].
  destruct i as [|i].
  - cbn [bfill]. destruct x as [v|]; [done|].
    cbn [lookup list_lookup fmap option_fmap option_map filled_with drop].
    by rewrite bfill_head.
  - cbn [bfill]. destruct x as [v|]; cbn [lookup list_lookup drop]; apply IH.
Qed.

Lemma ffill_from_length (carried : option V) (s : Series V) :
  length (ffill_from carried s) = length s.
Proof.
  revert carried. induction s as [|[x|] s IH]; intros carried; cbn; by rewrite ?IH.
Qed.

Lemma bfill_length (s : Series V) : length (bfill s) = length s.
Proof. induction s as [|[x|] s IH]; cbn; by rewrite ?IH. Qed.

(** A column-wise edit keeps the labels and the positions of the
    columns. *)
Lemma map_columns_labels (f : Series V -> Series V) (df : DataFrame V) :
  col_labels (map_columns f df) = col_labels df.
Proof.
  unfold col_labels, map_columns. cbn [columns].
  change (map ?g ?l) with (g <$> l). rewrite <- list_fmap_compose.
  by apply list_fmap_ext.
Qed.

Lemma map_columns_lookup (f : Series V -> Series V) (df : DataFrame V)
    (j : nat) (l : label) (s : Series V) :
  columns df !! j = Some (l, s) -> columns (map_columns f df) !! j = Some (l, f s).
Proof.
  intros Hj. unfold map_columns. cbn [columns].
  change (map ?g ?l) with (g <$> l). by rewrite list_lookup_fmap, Hj.
Qed.

(** The [columns] argument of the three fills is computed and then left
    unused: the result does not depend on it. *)
Lemma fill_na_by_custom_value_any_columns
    (df : DataFrame V) (cols cols' : option (list label)) (value : option V) :
  fill_na_by_custom_value df cols value = fill_na_by_custom_value df cols' value.
Proof. reflexivity. Qed.

Lemma fill_na_forward_or_backward_any_columns
    (df : DataFrame V) (cols cols' : option (list label)) (method : string) :
  fill_na_forward_or_backward df cols method
  = fill_na_forward_or_backward df cols' method.
Proof. reflexivity. Qed.

Lemma fill_na_by_interpolate_any_columns
    (interpolate : DataFrame V -> string -> res (DataFrame V))
    (df : DataFrame V) (cols cols' : option (list label)) (method : string) :
  fill_na_by_interpolate interpolate df cols method
  = fill_na_by_interpolate interpolate df cols' method.
Proof. reflexivity. Qed.

(** The rolling fill never returns a frame: once the method is
    accepted, the call ends in an exception. *)
Lemma fill_na_by_rolling_raises
    (df : DataFrame V) (cols : option (list label)) (method : string)
    (window_size : option Z) (center : bool) :
  exists e, fill_na_by_rolling df cols method window_size center = Raise e.
Proof.
  unfold fill_na_by_rolling.
  destruct (negb _); [eauto|].
  destruct (getitem_list df _); [|cbn; eauto].
  destruct (rolling df _ center) as [r|e]; [|cbn; eauto].
  cbn. unfold Rolling_transform. destruct (bool_decide _); cbn; eauto.
Qed.

End Frame.

Lemma fill_na_by_statistics_any_columns
    (df : DataFrame Q) (cols cols' : option (list label)) (method : string) :
  fill_na_by_statistics df cols method = fill_na_by_statistics df cols' method.
Proof. reflexivity. Qed.

(** C4, as the code has it. [fill_na_forward_or_backward] raises its
    configuration error exactly when the method is outside the enumerated
    set, for every frame alike; the two members of the set are spelled
    "ffill" and "bfill".  With "ffill" the call returns a frame with the
    rows and the column labels of the input in which every cell of every
    column is its own value when it has one and otherwise the nearest
    preceding non-missing value of its column (it stays missing when there
    is none).  With "bfill" the donor is the nearest following one.  The
    column [1, missing, missing, 4] becomes [1, 1, 1, 4] and
    [1, 4, 4, 4]. *)
Theorem fill_na_forward_or_backward_spec {V : Type} `{EqDecision V}
    (df : DataFrame V) (cols : option (list label)) (method : string) :
  ((exists msg, fill_na_forward_or_backward df cols method = Raise (ValueError msg))
   <-> method ∉ ["ffill"; "bfill"])
  /\ (exists d, fill_na_forward_or_backward df cols "ffill" = Ok d
        /\ index d = index df
        /\ col_labels d = col_labels df
        /\ forall j l s, columns df !! j = Some (l, s) ->
             exists s', columns d !! j = Some (l, s')
                        /\ length s' = length s
                        /\ forall i x, s !! i = Some x ->
                             s' !! i = Some (filled_with (nearest_preceding s i) x))
  /\ (exists d, fill_na_forward_or_backward df cols "bfill" = Ok d
        /\ index d = index df
        /\ col_labels d = col_labels df
        /\ forall j l s, columns df !! j = Some (l, s) ->
             exists s', columns d !! j = Some (l, s')
                        /\ length s' = length s
                        /\ forall i x, s !! i = Some x ->
                             s' !! i = Some (filled_with (nearest_following s i) x))
  /\ fill_na_forward_or_backward Sample.gap_run None "ffill"
     = Ok (mkDF [LInt 0; LInt 1; LInt 2; LInt 3]
                [(LStr "a", [Some 1%Z; Some 1%Z; Some 1%Z; Some 4%Z])])
  /\ fill_na_forward_or_backward Sample.gap_run None "bfill"
     = Ok (mkDF [LInt 0; LInt 1; LInt 2; LInt 3]
                [(LStr "a", [Some 1%Z; Some 4%Z; Some 4%Z; Some 4%Z])]).
Proof.
  split; [|split; [|split; [|split; reflexivity]]].
  - unfold fill_na_forward_or_backward.
    destruct (decide (method ∈ ["ffill"; "bfill"])) as [Hin|Hout].
    + rewrite (bool_decide_eq_true_2 _ Hin). cbn [negb]. split; [|done].
      intros [msg Hmsg]. exfalso.
      apply elem_of_cons in Hin as [->|Hin]; [discriminate Hmsg|].
      apply list_elem_of_singleton in Hin as ->. discriminate Hmsg.
    + rewrite (bool_decide_eq_false_2 _ Hout). cbn [negb]. split; [done|].
      intros _. eauto.
  - exists (map_columns ffill df). split; [reflexivity|]. split; [done|].
    split; [apply map_columns_labels|].
    intros j l s Hj. exists (ffill s). split; [by apply map_columns_lookup|].
    split; [apply ffill_from_length|].
    intros i x Hx. unfold ffill. rewrite ffill_from_lookup, Hx.
    cbn [fmap option_fmap option_map]. by destruct (nearest_preceding s i).
  - exists (map_columns bfill df). split; [reflexivity|]. split; [done|].
    split; [apply map_columns_labels|].
    intros j l s Hj. exists (bfill s). split; [by apply map_columns_lookup|].
    split; [apply bfill_length|].
    intros i x Hx. by rewrite bfill_lookup, Hx.
Qed.

(** C4, as stated, fails: "forward" and "backward" are no members of
    the enumerated set, so with either of them the call raises the
    configuration error instead of filling the column. *)
Lemma fill_na_forward_or_backward_rejects_forward :
  fill_na_forward_or_backward Sample.gap_run None "forward"
  = Raise (ValueError "Invalid method. Choose 'ffill', 'bfill'")
  /\ fill_na_forward_or_backward Sample.gap_run None "backward"
     = Raise (ValueError "Invalid method. Choose 'ffill', 'bfill'").
Proof. split; reflexivity. Qed.

(** The library's other name of the forward fill is outside the set of
    the function, and is refused. *)
Lemma fill_na_forward_or_backward_spec_witness :
  exists msg, fill_na_forward_or_backward Sample.gap_run None "pad"
              = Raise (ValueError msg).
Proof.
  refine (proj2 (proj1 (fill_na_forward_or_backward_spec Sample.gap_run None "pad")) _).
  apply (bool_decide_unpack _). by vm_compute.
Defined.

(** C1 fails on the code: the frame has ten rows, numbered 0 to 9,
    and one column "x" with seven non-missing cells.  Handed the name of
    that column, as its documentation asks, or no column list at all, the
    drop looks the column names up among the row labels and raises a key
    error, at every rate below 1: the column is neither kept nor
    dropped. *)
Theorem remove_missing_columns_column_name_raises :
  nrows Sample.ten_rows = 10%nat
  /\ (exists s, getitem Sample.ten_rows (LStr "x") = Ok s /\ count s = 7%nat)
  /\ forall r : Q, (0 <= r)%Q -> (r < 1)%Q ->
       remove_missing_columns Sample.ten_rows (Some [LStr "x"]) r
       = Raise (KeyError [LStr "x"])
       /\ remove_missing_columns Sample.ten_rows None r
          = Raise (KeyError [LStr "x"]).
Proof.
  split; [reflexivity|]. split; [eexists; split; reflexivity|].
  intros r H0 H1. rewrite !remove_missing_columns_dropna by done.
  split; reflexivity.
Qed.

(** At the rate of 1/2, where the specification expects the column to
    survive. *)
Lemma remove_missing_columns_column_name_raises_witness :
  remove_missing_columns Sample.ten_rows (Some [LStr "x"]) (1 # 2)
  = Raise (KeyError [LStr "x"])
  /\ remove_missing_columns Sample.ten_rows None (1 # 2)
     = Raise (KeyError [LStr "x"]).
Proof.
  refine (proj2 (proj2 remove_missing_columns_column_name_raises) (1 # 2) _ _).
  - discriminate.
  - reflexivity.
Defined.

(** C3 fails on the code: asked to fill column "a" only, the constant
    fill also fills the missing cell of column "b". *)
Theorem fill_na_by_custom_value_fills_other_columns :
  fill_na_by_custom_value Sample.two_columns (Some [LStr "a"]) (Some 0%Z)
  = Ok (mkDF [LInt 0; LInt 1]
             [(LStr "a", [Some 1%Z; Some 0%Z]); (LStr "b", [Some 0%Z; Some 2%Z])])
  /\ getitem Sample.two_columns (LStr "b") = Ok [None; Some 2%Z].
Proof. split; reflexivity. Qed.

(** C5 fails on the code: on a frame where the global mean fills the
    gap of column "a" with 2, the rolling fill with its default window
    raises instead of returning a frame. *)
Theorem fill_na_by_rolling_default_window_raises :
  fill_na_by_statistics Sample.gaps (Some [LStr "a"]) "mean"
  = Ok (mkDF [LInt 0; LInt 1; LInt 2]
             [(LStr "a", [Some 1%Q; Some 2%Q; Some 3%Q]);
              (LStr "b", [Some 4%Q; Some 4%Q; Some 4%Q])])
  /\ fill_na_by_rolling Sample.gaps (Some [LStr "a"]) "mean" None false
     = Raise (AttributeError "'Rolling' object has no attribute 'transform'").
Proof. split; reflexivity. Qed.

End MissingValueFacts.

(** ** Frames: lookup, assignment, selection *)

Module FrameFacts.
Import ListFacts.

Section Frame.
Context {V : Type} `{EqDecision V}.

Lemma find_label_elem (cols : list (label * Series V)) (l : label) (c : label * Series V) :
  find (fun c => bool_decide (c.1 = l)) cols = Some c -> c.1 = l /\ c ∈ cols.
Proof.
  intros Hf. apply find_some in Hf as [Hin Hb].
  split; [by apply bool_decide_eq_true_1 in Hb | by apply list_elem_of_In].
Qed.

Lemma find_label_None (cols : list (label * Series V)) (l : label) :
  find (fun c => bool_decide (c.1 = l)) cols = None <-> l ∉ cols.*1.
Proof.
  induction cols as [|c cols IH]; cbn [find fmap list_fmap].
  - split; [intros _; apply not_elem_of_nil | done].
  - rewrite not_elem_of_cons. destruct (decide (c.1 = l)) as [Heq|Hne].
    + rewrite (bool_decide_eq_true_2 _ Heq). split; [done | intros [? _]; congruence].
    + rewrite (bool_decide_eq_false_2 _ Hne), IH. split; [intros ?; split; congruence | tauto].
Qed.

Lemma find_label_is_Some (cols : list (label * Series V)) (l : label) :
  l ∈ cols.*1 -> exists s, find (fun c => bool_decide (c.1 = l)) cols = Some (l, s).
Proof.
  intros Hl. destruct (find _ cols) as [[l' s]|] eqn:Hf.
  - apply find_label_elem in Hf as [Heq _]. cbn in Heq. subst l'. by exists s.
  - apply find_label_None in Hf. done.
Qed.

Lemma getitem_Ok (df : DataFrame V) (col : label) (s : Series V) :
  getitem df col = Ok s -> (col, s) ∈ columns df.
Proof.
  unfold getitem. destruct (find _ _) as [[l s']|] eqn:Hf; [|discriminate].
  intros [= <-]. apply find_label_elem in Hf as [Heq Hin]. cbn in Heq. by subst l.
Qed.

Lemma getitem_absent (df : DataFrame V) (col : label) :
  col ∉ col_labels df <-> getitem df col = Raise (KeyError [col]).
Proof.
  unfold getitem, col_labels. rewrite <- find_label_None.
  destruct (find _ _); split; congruence.
Qed.

Lemma setitem_shape (df : DataFrame V) (col : label) (s : Series V) :
  col ∈ col_labels df ->
  index (setitem df col s) = index df
  /\ col_labels (setitem df col s) = col_labels df.
Proof.
  intros Hin. unfold setitem. rewrite (bool_decide_eq_true_2 _ Hin).
  split; [done|]. unfold col_labels. cbn [columns]. clear Hin.
  induction (columns df) as [|c cols IH]; [done|].
  cbn [map fmap list_fmap]. cbn [fmap list_fmap] in IH. rewrite <- IH.
  f_equal. destruct (decide (c.1 = col)) as [Heq|Hne].
  - by rewrite (bool_decide_eq_true_2 _ Heq).
  - by rewrite (bool_decide_eq_false_2 _ Hne).
Qed.

(** Assigning one column leaves the lookup of every other label as it
    was. *)
Lemma getitem_setitem_ne (df : DataFrame V) (col l : label) (s : Series V) :
  col ∈ col_labels df -> l <> col ->
  getitem (setitem df col s) l = getitem df l.
Proof.
  intros Hin Hne. unfold setitem, getitem. rewrite (bool_decide_eq_true_2 _ Hin).
  cbn [columns]. clear Hin.
  induction (columns df) as [|c cols IH]; [done|].
  cbn [map find]. destruct (decide (c.1 = col)) as [Heq|Hne'].
  - rewrite (bool_decide_eq_true_2 _ Heq). cbn [fst].
    rewrite (bool_decide_eq_false_2 (col = l)) by congruence.
    rewrite (bool_decide_eq_false_2 (c.1 = l)) by congruence. exact IH.
  - rewrite (bool_decide_eq_false_2 _ Hne').
    destruct (bool_decide (c.1 = l)); [done | exact IH].
Qed.

(** A mask of the right length picks a sublist, as long as the number
    of its true entries. *)
Lemma select_sublist {A} (mask : list bool) (l : list A) :
  select mask l `sublist_of` l.
Proof.
  unfold select. revert l. induction mask as [|b mask IH]; intros [|x l];
    cbn [zip zip_with]; try (rewrite filter_nil; cbn; by apply sublist_nil_l).
  rewrite filter_cons. cbn [fst]. destruct b.
  - destruct (decide (true = true)); [|done]. cbn [map snd]. by apply sublist_skip.
  - destruct (decide (false = true)); [done|]. by apply sublist_cons.
Qed.

Lemma select_length {A} (mask : list bool) (l : list A) :
  length mask = length l ->
  length (select mask l) = length (filter (fun b => b = true) mask).
Proof.
  unfold select. revert l. induction mask as [|b mask IH]; intros [|x l] Hlen;
    try discriminate; [done|].
  cbn [zip zip_with]. rewrite !filter_cons. cbn [fst].
  injection Hlen as Hlen. destruct b.
  - destruct (decide (true = true)); [|done]. cbn [map length]. by rewrite IH.
  - destruct (decide (false = true)); [done|]. by apply IH.
Qed.

End Frame.
End FrameFacts.

(** ** Properties of class FeatureSelection *)

Module FeatureSelectionFacts.
Import FeatureSelection ListFacts FrameFacts.

Section Frame.
Context {V : Type} `{EqDecision V}.

Lemma omap_find_labels (cols : list (label * Series V)) (names : list label) :
  names ⊆ cols.*1 ->
  (omap (fun l => find (fun c => bool_decide (c.1 = l)) cols) names).*1 = names
  /\ Forall (fun c => c ∈ cols)
       (omap (fun l => find (fun c => bool_decide (c.1 = l)) cols) names).
Proof.
  induction names as [|l names IH]; intros Hsub; [by split; [|constructor]|].
  destruct (find_label_is_Some cols l) as [s Hs]; [apply Hsub; left|].
  destruct IH as [IH1 IH2]; [intros x Hx; apply Hsub; by right|].
  cbn [omap list_omap]. rewrite Hs. cbn [fmap list_fmap fst].
  cbn [fmap list_fmap] in IH1. rewrite IH1. split; [done|].
  constructor; [|done]. by apply find_label_elem in Hs as [_ ?].
Qed.

Lemma find_omap_find (cols : list (label * Series V)) (names : list label) (l : label) :
  names ⊆ cols.*1 -> l ∈ names ->
  find (fun c => bool_decide (c.1 = l))
       (omap (fun l => find (fun c => bool_decide (c.1 = l)) cols) names)
  = find (fun c => bool_decide (c.1 = l)) cols.
Proof.
  induction names as [|a names IH]; intros Hsub Hl; [by apply not_elem_of_nil in Hl|].
  destruct (find_label_is_Some cols a) as [s Hs]; [apply Hsub; left|].
  cbn [omap list_omap]. rewrite Hs. cbn [find fst].
  destruct (decide (a = l)) as [->|Hne].
  - by rewrite (bool_decide_eq_true_2 _ eq_refl).
  - rewrite (bool_decide_eq_false_2 _ Hne).
    apply elem_of_cons in Hl as [->|Hl]; [done|].
    apply IH; [|done]. intros x Hx. apply Hsub. by right.
Qed.

(** X1. Selection by name, on a frame with distinct column labels,
    succeeds exactly when every name is a column.  The result then has the rows of the input, the named columns in the
    order of the names, each with the cells it has in the input; otherwise
    the key error lists the names that are no columns. *)
Theorem select_columns_by_name_exact (data : DataFrame V) (names : list label) :
  (NoDup (col_labels data) -> names ⊆ col_labels data ->
   exists d, select_columns_by_name data names = Ok d
             /\ index d = index data
             /\ col_labels d = names
             /\ (forall l, l ∈ names -> getitem d l = getitem data l)
             /\ (wf data -> wf d))
  /\ (~ names ⊆ col_labels data ->
      select_columns_by_name data names
      = Raise (KeyError (filter (fun l => l ∉ col_labels data) names))).
Proof.
  unfold select_columns_by_name, getitem_list. split.
  - intros _ Hsub.
    rewrite (filter_none (fun l => l ∉ col_labels data))
      by (intros x Hx Hn; apply Hn, Hsub, Hx).
    eexists. split; [reflexivity|]. cbn [index columns]. split; [done|].
    destruct (omap_find_labels (columns data) names Hsub) as [Hlab Hall].
    split; [exact Hlab|]. split.
    + intros l Hl. unfold getitem. cbn [columns]. by rewrite find_omap_find.
    + unfold wf. cbn [index columns]. rewrite !Forall_forall.
      intros Hwf c Hc. apply Hwf. rewrite Forall_forall in Hall. by apply Hall.
  - intros Hno.
    destruct (filter (fun l => l ∉ col_labels data) names) as [|m ms] eqn:Hf; [|done].
    exfalso. apply Hno. intros x Hx.
    destruct (decide (x ∈ col_labels data)) as [|Hn]; [done|].
    by apply (filter_nil_inv _ _ Hf x Hx) in Hn.
Qed.

(** X2. Selection by condition, given one boolean per column, returns the
    columns where the mask is true, in their order and with their rows:
    the result is a sublist of the input's columns with as many columns as
    the mask has true entries.  An empty list selects no column, whatever
    the frame; a list of any other length is refused. *)
Theorem select_columns_by_condition_sublist
    (data : DataFrame V) (condition : DataFrame V -> list bool) :
  (length (condition data) = length (columns data) ->
   exists d, select_columns_by_condition data condition = Some d
             /\ index d = index data
             /\ columns d `sublist_of` columns data
             /\ length (columns d)
                = length (filter (fun b => b = true) (condition data))
             /\ (wf data -> wf d))
  /\ (condition data = [] ->
      select_columns_by_condition data condition = Some (mkDF (index data) []))
  /\ (condition data <> [] -> length (condition data) <> length (columns data) ->
      select_columns_by_condition data condition = None).
Proof.
  unfold select_columns_by_condition. split; [|split].
  - intros Hlen. destruct (decide (condition data = [])) as [Hnil|Hne].
    + rewrite (bool_decide_eq_true_2 _ Hnil), Hnil.
      eexists. split; [reflexivity|]. cbn [index columns].
      split; [done|]. split; [apply sublist_nil_l|]. split; [done|].
      intros _. constructor.
    + rewrite (bool_decide_eq_false_2 _ Hne), (bool_decide_eq_true_2 _ Hlen).
      eexists. split; [reflexivity|]. unfold loc_columns. cbn [index columns].
      split; [done|]. split; [apply select_sublist|]. split; [by apply select_length|].
      unfold wf. cbn [index columns]. rewrite !Forall_forall.
      intros Hwf c Hc. apply Hwf.
      by apply (sublist_subseteq _ _ (select_sublist (condition data) (columns data))).
  - intros Hnil. by rewrite (bool_decide_eq_true_2 _ Hnil).
  - intros Hne Hlen.
    by rewrite (bool_decide_eq_false_2 _ Hne), (bool_decide_eq_false_2 _ Hlen).
Qed.

End Frame.

(** The second and the first column of a frame, asked for in that
    order. *)
Lemma select_columns_by_name_exact_witness :
  exists d, select_columns_by_name Sample.two_columns [LStr "b"; LStr "a"] = Ok d
            /\ index d = index Sample.two_columns
            /\ col_labels d = [LStr "b"; LStr "a"]
            /\ (forall l, l ∈ [LStr "b"; LStr "a"] ->
                          getitem d l = getitem Sample.two_columns l)
            /\ (wf Sample.two_columns -> wf d).
Proof.
  refine (proj1 (select_columns_by_name_exact Sample.two_columns [LStr "b"; LStr "a"]) _ _).
  { apply (bool_decide_unpack _). by vm_compute. }
  intros x Hx. apply elem_of_cons in Hx as [->|Hx]; [right; left|].
  apply list_elem_of_singleton in Hx as ->. left.
Defined.

(** An empty list on a frame with two columns, and a list of three
    booleans. *)
Example select_columns_by_condition_other_lengths :
  select_columns_by_condition Sample.two_columns (fun _ => [])
  = Some (mkDF [LInt 0; LInt 1] [])
  /\ select_columns_by_condition Sample.two_columns (fun _ => [true; true; true]) = None.
Proof. split; reflexivity. Qed.

(** A mask keeping the second of two columns. *)
Lemma select_columns_by_condition_sublist_witness :
  exists d, select_columns_by_condition Sample.two_columns (fun _ => [false; true]) = Some d
            /\ index d = index Sample.two_columns
            /\ columns d `sublist_of` columns Sample.two_columns
            /\ length (columns d) = length (filter (fun b => b = true) [false; true])
            /\ (wf Sample.two_columns -> wf d).
Proof.
  refine (proj1 (select_columns_by_condition_sublist Sample.two_columns
                   (fun _ => [false; true])) _).
  reflexivity.
Defined.

End FeatureSelectionFacts.

(** ** Further properties of class DataProcess *)

Module DataProcessMore.
Import DataProcess Reference ListFacts FrameFacts.

Section Infer.
Variable F : Type.
Variable single_exact : F -> bool.

Lemma signed_bounds :
  Np.iinfo_min Np.W8 = (-128)%Z /\ Np.iinfo_max Np.W8 = 127%Z
  /\ Np.iinfo_min Np.W16 = (-32768)%Z /\ Np.iinfo_max Np.W16 = 32767%Z
  /\ Np.iinfo_min Np.W32 = (-2147483648)%Z /\ Np.iinfo_max Np.W32 = 2147483647%Z
  /\ Np.iinfo_min Np.W64 = (-9223372036854775808)%Z
  /\ Np.iinfo_max Np.W64 = 9223372036854775807%Z.
Proof. repeat split; reflexivity. Qed.

(** The minimum and the maximum of a non-empty column are values of
    the column. *)
Lemma fold_min_mem (l : list Z) (z : Z) : fold_left Z.min l z ∈ z :: l.
Proof.
  revert z. induction l as [|y l IH]; intros z; cbn [fold_left]; [left|].
  specialize (IH (Z.min z y)). apply elem_of_cons in IH as [->|IH].
  - destruct (Z.min_spec z y) as [[_ ->]|[_ ->]]; [left | right; left].
  - by do 2 right.
Qed.

Lemma fold_max_mem (l : list Z) (z : Z) : fold_left Z.max l z ∈ z :: l.
Proof.
  revert z. induction l as [|y l IH]; intros z; cbn [fold_left]; [left|].
  specialize (IH (Z.max z y)). apply elem_of_cons in IH as [->|IH].
  - destruct (Z.max_spec z y) as [[_ ->]|[_ ->]]; [right; left | left].
  - by do 2 right.
Qed.

Ltac split_range_checks :=
  repeat match goal with
         | |- context [if ?b && ?c then _ else _] =>
             let E1 := fresh "E" in let E2 := fresh "E" in
             destruct b eqn:E1; destruct c eqn:E2; cbn [andb]
         end;
  repeat match goal with
         | E : (_ <=? _)%Z = true |- _ => apply Z.leb_le in E
         | E : (_ <=? _)%Z = false |- _ => apply Z.leb_gt in E
         end.

(** X3. Narrowing never widens a signed column: for a non-empty column of
    a signed integer dtype whose values that dtype can hold, the result
    is a signed type of at most the width of the column's dtype. *)
Theorem infer_numeric_dtype_signed_not_wider
    (w0 : Np.width) (z : Z) (l : list Z) :
  (forall x, x ∈ z :: l -> Np.in_range (Np.Int w0) x) ->
  exists w,
    infer_numeric_dtype F single_exact (Np.mkSeries (Np.Int w0) (Np.Integers (z :: l)))
    = Np.Int w
    /\ (Np.bits w <= Np.bits w0)%Z.
Proof.
  intros Hrange.
  pose proof (Hrange _ (fold_min_mem l z)) as Hlo.
  pose proof (Hrange _ (fold_max_mem l z)) as Hhi.
  unfold infer_numeric_dtype, Np.s_min, Np.s_max, Np.ge, Np.le.
  cbn [Np.s_dtype Np.s_data Np.kind Np.in_range] in *.
  rewrite (bool_decide_eq_true_2 ("i" ∈ ["i"; "u"])) by left.
  destruct signed_bounds as (m8 & M8 & m16 & M16 & m32 & M32 & m64 & M64).
  destruct w0; rewrite ?m8, ?M8, ?m16, ?M16, ?m32, ?M32, ?m64, ?M64 in *;
    split_range_checks; try lia;
    (eexists; split; [reflexivity | cbn [Np.bits]; lia]).
Qed.

(** X4. An unsigned column of 8, 16 or 32 bits always gets a signed type,
    of at most twice its width; and twice it is as soon as a value exceeds
    the signed range of the column's own width.  An 8-bit unsigned column
    holding a value above 127 thus goes to 16 bits. *)
Theorem infer_numeric_dtype_unsigned_doubles
    (w0 : Np.width) (z : Z) (l : list Z) :
  w0 <> Np.W64 ->
  (forall x, x ∈ z :: l -> Np.in_range (Np.UInt w0) x) ->
  exists w,
    infer_numeric_dtype F single_exact (Np.mkSeries (Np.UInt w0) (Np.Integers (z :: l)))
    = Np.Int w
    /\ (Np.bits w <= 2 * Np.bits w0)%Z
    /\ ((exists x, x ∈ z :: l /\ (Np.iinfo_max w0 < x)%Z) ->
        Np.bits w = (2 * Np.bits w0)%Z).
Proof.
  intros Hw Hrange.
  pose proof (Hrange _ (fold_min_mem l z)) as Hlo.
  pose proof (Hrange _ (fold_max_mem l z)) as Hhi.
  assert (Hmax : forall x, x ∈ z :: l -> (x <= fold_left Z.max l z)%Z).
  { intros x Hx.
    by apply (proj1 (DataProcessFacts.fold_max_spec l z (fold_left Z.max l z))
                (Z.le_refl _)). }
  unfold infer_numeric_dtype, Np.s_min, Np.s_max, Np.ge, Np.le.
  cbn [Np.s_dtype Np.s_data Np.kind Np.in_range] in *.
  rewrite (bool_decide_eq_true_2 ("u" ∈ ["i"; "u"])) by (right; left).
  destruct signed_bounds as (m8 & M8 & m16 & M16 & m32 & M32 & m64 & M64).
  destruct w0; [| | |done]; cbn [Np.bits] in *;
    rewrite ?m8, ?M8, ?m16, ?M16, ?m32, ?M32, ?m64, ?M64 in *;
    split_range_checks; try lia;
    (eexists; split; [reflexivity|]; split; [cbn [Np.bits]; lia|];
     intros (x & Hx & Hbig); apply Hmax in Hx; cbn [Np.bits]; lia).
Qed.

End Infer.

Section Frame.
Context {V : Type} `{EqDecision V}.

Lemma remove_dups_constant (v : V) (l : list V) :
  l <> [] -> (forall x, x ∈ l -> x = v) -> remove_dups l = [v].
Proof.
  induction l as [|a l IH]; intros Hne Hall; [done|].
  assert (a = v) as -> by (apply Hall; left).
  cbn [remove_dups]. destruct l as [|b l].
  - by destruct (decide_rel elem_of v []) as [Hin|]; [apply not_elem_of_nil in Hin|].
  - rewrite IH; [|done|intros x Hx; apply Hall; by right].
    destruct (decide_rel elem_of v (b :: l)) as [|Hn]; [done|].
    exfalso. apply Hn. rewrite (Hall b) by (right; left). left.
Qed.

Lemma remove_dups_id (l : list V) : NoDup l -> remove_dups l = l.
Proof.
  induction 1 as [|a l Ha Hnd IH]; [done|].
  cbn [remove_dups]. rewrite IH. by destruct (decide_rel elem_of a l).
Qed.

Lemma kept_columns (df : DataFrame V) (c : label * Series V) :
  c ∈ columns (remove_constant_or_unique_columns df)
  <-> (nunique c.2 ∉ [1%nat; nrows df]) /\ c ∈ columns df.
Proof.
  rewrite DataProcessFacts.remove_constant_or_unique_columns_filter. cbn [columns].
  rewrite list_elem_of_filter, negb_true_iff, bool_decide_eq_false. done.
Qed.

(** X5. A frame without rows loses all its columns: each has zero distinct
    values, which is the row count. *)
Theorem remove_constant_or_unique_columns_no_rows (df : DataFrame V) :
  nrows df = 0%nat -> wf df ->
  remove_constant_or_unique_columns df = mkDF (index df) [].
Proof.
  intros Hn Hwf. rewrite DataProcessFacts.remove_constant_or_unique_columns_filter.
  f_equal. apply filter_none. intros c Hc. rewrite negb_true_iff, bool_decide_eq_false.
  intros Hkeep. apply Hkeep. unfold wf in Hwf. rewrite Forall_forall in Hwf.
  specialize (Hwf c Hc). unfold nrows in *. rewrite Hn in *.
  destruct (c.2); [|discriminate]. right. left.
Qed.

(** X6. What "constant" and "unique" mean for the code.  A column whose
    present cells all hold one value is dropped, missing cells or not; a
    column without missing cells whose values are pairwise distinct is
    dropped; a column that is entirely missing is kept as long as the
    frame has rows. *)
Theorem remove_constant_or_unique_columns_drops
    (df : DataFrame V) (l : label) (s : Series V) :
  wf df -> (l, s) ∈ columns df ->
  (forall v, Some v ∈ s -> (forall x, Some x ∈ s -> x = v) ->
             (l, s) ∉ columns (remove_constant_or_unique_columns df))
  /\ (None ∉ s -> NoDup s ->
      (l, s) ∉ columns (remove_constant_or_unique_columns df))
  /\ ((forall x, x ∈ s -> x = None) -> (0 < nrows df)%nat ->
      (l, s) ∈ columns (remove_constant_or_unique_columns df)).
Proof.
  intros Hwf Hin.
  assert (Hlen : length s = nrows df).
  { unfold wf in Hwf. rewrite Forall_forall in Hwf. exact (Hwf _ Hin). }
  assert (Homap : forall x, x ∈ omap id s <-> Some x ∈ s).
  { intros x. rewrite list_elem_of_omap. split.
    - intros (y & Hy & Hx). cbn in Hx. by subst y.
    - intros Hx. by exists (Some x). }
  split; [|split].
  - intros v Hv Hall. rewrite kept_columns. intros [Hkeep _]. apply Hkeep.
    unfold nunique. cbn [snd]. rewrite (remove_dups_constant v).
    + left.
    + intros Hnil. apply Homap in Hv. rewrite Hnil in Hv. by apply not_elem_of_nil in Hv.
    + intros x Hx. apply Hall. by apply Homap.
  - intros Hnone Hnd. rewrite kept_columns. intros [Hkeep _]. apply Hkeep.
    unfold nunique. cbn [snd].
    assert (Hs : s = Some <$> omap id s).
    { clear -Hnone. induction s as [|[x|] s IH]; [done| |].
      - cbn. f_equal. apply IH. intros Hn. apply Hnone. by right.
      - exfalso. apply Hnone. left. }
    rewrite remove_dups_id.
    + rewrite <- Hlen. rewrite Hs at 2. rewrite length_fmap. right. left.
    + rewrite Hs in Hnd. by apply (NoDup_fmap_1 Some) in Hnd.
  - intros Hall Hpos. rewrite kept_columns. split; [|done].
    unfold nunique. cbn [snd].
    assert (Hnil : omap id s = []).
    { clear -Hall. induction s as [|x s IH]; [done|].
      rewrite (Hall x) by left. cbn. apply IH. intros y Hy. apply Hall. by right. }
    rewrite Hnil. cbn. rewrite !not_elem_of_cons. repeat split; [lia|lia|].
    apply not_elem_of_nil.
Qed.

End Frame.

(** An 8-bit signed column stays at 8 bits. *)
Lemma infer_numeric_dtype_signed_not_wider_witness :
  exists w,
    infer_numeric_dtype unit (fun _ => true)
      (Np.mkSeries (Np.Int Np.W8) (Np.Integers [-5; 100]%Z)) = Np.Int w
    /\ (Np.bits w <= Np.bits Np.W8)%Z.
Proof.
  refine (infer_numeric_dtype_signed_not_wider unit (fun _ => true) Np.W8 (-5) [100%Z] _).
  intros x Hx. apply elem_of_cons in Hx as [->|Hx]; [by vm_compute|].
  apply list_elem_of_singleton in Hx as ->. by vm_compute.
Defined.

(** The 8-bit unsigned column [200] goes to a 16-bit signed type. *)
Lemma infer_numeric_dtype_unsigned_doubles_witness :
  exists w,
    infer_numeric_dtype unit (fun _ => true)
      (Np.mkSeries (Np.UInt Np.W8) (Np.Integers [200%Z])) = Np.Int w
    /\ (Np.bits w <= 2 * Np.bits Np.W8)%Z
    /\ ((exists x, x ∈ [200%Z] /\ (Np.iinfo_max Np.W8 < x)%Z) ->
        Np.bits w = (2 * Np.bits Np.W8)%Z).
Proof.
  refine (infer_numeric_dtype_unsigned_doubles unit (fun _ => true) Np.W8 200 [] _ _).
  - discriminate.
  - intros x Hx. apply list_elem_of_singleton in Hx as ->. by vm_compute.
Defined.

(** A frame with three columns and no row. *)
Lemma remove_constant_or_unique_columns_no_rows_witness :
  remove_constant_or_unique_columns
    (mkDF [] [(LStr "a", @nil (option Z)); (LStr "b", []); (LStr "c", [])])
  = mkDF [] [].
Proof.
  refine (remove_constant_or_unique_columns_no_rows
            (mkDF [] [(LStr "a", @nil (option Z)); (LStr "b", []); (LStr "c", [])]) _ _).
  - reflexivity.
  - repeat constructor.
Defined.

(** The column [7, missing, 7] counts as constant. *)
Lemma remove_constant_or_unique_columns_drops_witness :
  (LStr "a", [Some 7%Z; None; Some 7%Z])
  ∉ columns (remove_constant_or_unique_columns
               (mkDF [LInt 0; LInt 1; LInt 2]
                     [(LStr "a", [Some 7%Z; None; Some 7%Z])])).
Proof.
  refine (proj1 (remove_constant_or_unique_columns_drops
                   (mkDF [LInt 0; LInt 1; LInt 2]
                         [(LStr "a", [Some 7%Z; None; Some 7%Z])])
                   (LStr "a") [Some 7%Z; None; Some 7%Z] _ _) 7%Z _ _).
  - repeat constructor.
  - left.
  - left.
  - intros x Hx. apply elem_of_cons in Hx as [[= ->]|Hx]; [done|].
    apply elem_of_cons in Hx as [[=]|Hx].
    apply list_elem_of_singleton in Hx as [= ->]. done.
Defined.

End DataProcessMore.

(** ** The in-place loops: convert_data_type and bin_columns *)

Module DataProcessLoops.
Import DataProcess Reference ListFacts FrameFacts.

Section Convert.
Context {V : Type} `{EqDecision V}.
Variable astype : Series V -> string -> res (Series V).
Variable to_datetime : Series V -> res (Series V).

(** A successful pass of the loop body assigns to an existing column
    and to nothing else. *)
Lemma convert_column_Ok (df df' : DataFrame V) (col : label) (dtype : string) :
  convert_column astype to_datetime df col dtype = Ok df' ->
  exists s s', getitem df col = Ok s /\ df' = setitem df col s'.
Proof.
  unfold convert_column.
  destruct (bool_decide (dtype ∈ ["int"; "float"]));
    [|destruct (bool_decide (dtype = "datetime"))];
    destruct (getitem df col) as [s|e]; cbn; try discriminate.
  - destruct (astype s dtype) as [s1|e]; cbn; [|discriminate].
    destruct (Series_apply _ s1) as [s2|e]; cbn; [|discriminate].
    intros [= <-]. eauto.
  - destruct (to_datetime s) as [s1|e]; cbn; [|discriminate].
    intros [= <-]. eauto.
  - destruct (astype s dtype) as [s1|e]; cbn; [|discriminate].
    intros [= <-]. eauto.
Qed.

Lemma convert_column_shape (df df' : DataFrame V) (col : label) (dtype : string) :
  convert_column astype to_datetime df col dtype = Ok df' ->
  index df' = index df
  /\ col_labels df' = col_labels df
  /\ forall l, l <> col -> getitem df' l = getitem df l.
Proof.
  intros (s & s' & Hget & ->)%convert_column_Ok.
  assert (Hin : col ∈ col_labels df).
  { apply getitem_Ok in Hget. unfold col_labels.
    by apply (list_elem_of_fmap_2 fst) in Hget. }
  destruct (setitem_shape df col s' Hin) as [Hidx Hlab].
  split; [done|]. split; [done|].
  intros l Hne. by apply getitem_setitem_ne.
Qed.

(** X7. When [convert_data_type] returns, the frame it returns has the
    rows and the column labels of the input, and every column that was not
    listed is as it was: the call never adds, drops or renames a column. *)
Theorem convert_data_type_keeps_shape
    (df df' : DataFrame V) (cols : list label) (dtype : string) (out : list failure) :
  convert_data_type astype to_datetime df cols dtype = (Ok df', out) ->
  index df' = index df
  /\ col_labels df' = col_labels df
  /\ forall l, l ∉ cols -> getitem df' l = getitem df l.
Proof.
  revert df out. induction cols as [|col rest IH]; intros df out.
  { cbn. intros [= <- <-]. done. }
  cbn [convert_data_type].
  destruct (convert_column astype to_datetime df col dtype) as [df1|e] eqn:Hcol.
  - intros Hrest. destruct (IH _ _ Hrest) as (Hi & Hl & Hg).
    destruct (convert_column_shape _ _ _ _ Hcol) as (Hi1 & Hl1 & Hg1).
    split; [congruence|]. split; [congruence|].
    intros l Hn. apply not_elem_of_cons in Hn as [Hne Hn].
    rewrite Hg by done. by apply Hg1.
  - destruct (is_ValueError e); [|discriminate].
    destruct (convert_data_type astype to_datetime df rest dtype) as [r out'] eqn:Hrest.
    intros [= -> <-]. destruct (IH _ _ Hrest) as (Hi & Hl & Hg).
    split; [done|]. split; [done|].
    intros l Hn. apply not_elem_of_cons in Hn as [_ Hn]. by apply Hg.
Qed.

(** X8. With the targets "int" and "float" nothing is ever converted.  On
    a frame with at least one row, and with a cast that keeps the length
    of a column, the call returns only when every listed column failed
    with a value error and was logged, and then the frame is unchanged;
    in every other case the call raises. *)
Theorem convert_data_type_numeric_targets_convert_nothing
    (df df' : DataFrame V) (cols : list label) (dtype : string) (out : list failure) :
  dtype ∈ ["int"; "float"] ->
  wf df -> (0 < nrows df)%nat ->
  (forall s t s', astype s t = Ok s' -> length s' = length s) ->
  convert_data_type astype to_datetime df cols dtype = (Ok df', out) ->
  df' = df /\ map failed_col out = cols
  /\ Forall (fun f => is_ValueError (failed_with f) = true) out.
Proof.
  intros Hdtype Hwf Hrows Hlen. revert out.
  induction cols as [|col rest IH]; intros out.
  { cbn. intros [= <- <-]. by repeat split. }
  cbn [convert_data_type]. unfold convert_column.
  rewrite (bool_decide_eq_true_2 _ Hdtype).
  destruct (getitem df col) as [s|e] eqn:Hget; cbn; [|].
  2:{ unfold getitem in Hget. destruct (find _ _); [discriminate|].
      injection Hget as <-. cbn. discriminate. }
  destruct (astype s dtype) as [s1|e] eqn:Hcast; cbn.
  - assert (Hs1 : length s1 = nrows df).
    { rewrite (Hlen _ _ _ Hcast). unfold wf in Hwf. rewrite Forall_forall in Hwf.
      exact (Hwf _ (getitem_Ok _ _ _ Hget)). }
    destruct s1 as [|x s1]; [cbn in Hs1; lia|]. cbn. discriminate.
  - destruct (is_ValueError e) eqn:He; [|discriminate].
    destruct (convert_data_type astype to_datetime df rest dtype) as [r out'] eqn:Hrest.
    intros [= -> <-]. destruct (IH _ eq_refl) as (-> & Hout & Hall).
    split; [done|]. split; [cbn; by rewrite Hout|]. by constructor.
Qed.

End Convert.

Section Bin.
Context {V : Type} `{EqDecision V} {B L : Type}.
Variable pd_cut : Series V -> B -> L -> res (Series V).

(** X9. Whatever [bin_columns] does, returning or raising, the caller's
    frame keeps its rows and its column labels, and every column that is
    no key of [bins_meta] is as it was.  When the call returns, it returns
    that frame, and every key is one of its columns. *)
Theorem bin_columns_frame (df : DataFrame V) (bins_meta : list (label * bin_meta B L)) :
  index (bin_columns pd_cut df bins_meta).2 = index df
  /\ col_labels (bin_columns pd_cut df bins_meta).2 = col_labels df
  /\ (forall l, l ∉ bins_meta.*1 ->
        getitem (bin_columns pd_cut df bins_meta).2 l = getitem df l)
  /\ (forall d, (bin_columns pd_cut df bins_meta).1 = Ok d ->
        d = (bin_columns pd_cut df bins_meta).2 /\ bins_meta.*1 ⊆ col_labels df).
Proof.
  revert df. induction bins_meta as [|[col meta] rest IH]; intros df.
  { cbn. split; [done|]. split; [done|]. split; [done|].
    intros d [= <-]. split; [done|].
    intros x Hx. by apply not_elem_of_nil in Hx. }
  cbn [bin_columns].
  destruct (getitem df col) as [s|e] eqn:Hget; cbn.
  2:{ split; [done|]. split; [done|]. split; [done|]. intros d. discriminate. }
  destruct (pd_cut s (bins meta) (labels meta)) as [binned|e]; cbn.
  2:{ split; [done|]. split; [done|]. split; [done|]. intros d. discriminate. }
  assert (Hin : col ∈ col_labels df).
  { apply getitem_Ok in Hget. unfold col_labels.
    by apply (list_elem_of_fmap_2 fst) in Hget. }
  destruct (setitem_shape df col binned Hin) as [Hidx Hlab].
  destruct (IH (setitem df col binned)) as (Hi & Hl & Hg & Hr).
  split; [congruence|]. split; [congruence|]. split.
  - intros l Hn. cbn [fmap list_fmap fst] in Hn.
    apply not_elem_of_cons in Hn as [Hne Hn].
    rewrite Hg by done. by apply getitem_setitem_ne.
  - intros d Hd. destruct (Hr d Hd) as [-> Hsub]. split; [done|].
    intros x Hx. cbn [fmap list_fmap fst] in Hx.
    apply elem_of_cons in Hx as [->|Hx]; [done|].
    rewrite <- Hlab. by apply Hsub.
Qed.

End Bin.

(** The frame keeps its shape through a conversion in which column "a"
    fails and column "b" succeeds. *)
Lemma convert_data_type_keeps_shape_witness :
  index (mkDF [LInt 0] [(LStr "a", [None]); (LStr "b", [Some 1%Z])])
  = [LInt 0]
  /\ col_labels (mkDF [LInt 0] [(LStr "a", [None]); (LStr "b", [Some 1%Z])])
     = col_labels (mkDF [LInt 0] [(LStr "a", [@None Z]); (LStr "b", [Some 1%Z])])
  /\ forall l, l ∉ [LStr "a"; LStr "b"] ->
       getitem (mkDF [LInt 0] [(LStr "a", [None]); (LStr "b", [Some 1%Z])]) l
       = getitem (mkDF [LInt 0] [(LStr "a", [None]); (LStr "b", [Some 1%Z])]) l.
Proof.
  refine (convert_data_type_keeps_shape Sample.picky_cast (fun s => Ok s)
            (mkDF [LInt 0] [(LStr "a", [None]); (LStr "b", [Some 1%Z])])
            (mkDF [LInt 0] [(LStr "a", [None]); (LStr "b", [Some 1%Z])])
            [LStr "a"; LStr "b"] "str"
            [Failed (LStr "a") "str" (ValueError "cannot convert")] _).
  reflexivity.
Defined.

(** With a cast that rejects every column, the "int" target logs the
    column and returns the frame as it was. *)
Lemma convert_data_type_numeric_targets_convert_nothing_witness :
  Sample.two_columns = Sample.two_columns
  /\ map failed_col [Failed (LStr "a") "int" (ValueError "no")] = [LStr "a"]
  /\ Forall (fun f => is_ValueError (failed_with f) = true)
       [Failed (LStr "a") "int" (ValueError "no")].
Proof.
  refine (convert_data_type_numeric_targets_convert_nothing
            (fun _ _ => Raise (ValueError "no")) (fun s => Ok s)
            Sample.two_columns Sample.two_columns [LStr "a"] "int"
            [Failed (LStr "a") "int" (ValueError "no")] _ _ _ _ _).
  - left.
  - repeat constructor.
  - cbn. lia.
  - discriminate.
  - reflexivity.
Defined.

(** Binning column "a" with a cut that succeeds leaves column "b" as it
    was. *)
Lemma bin_columns_frame_witness :
  getitem (bin_columns (B:=unit) (L:=unit) (fun s _ _ => Ok (map (fun _ => Some 0%Z) s))
             Sample.two_columns [(LStr "a", BinMeta tt tt)]).2 (LStr "b")
  = getitem Sample.two_columns (LStr "b").
Proof.
  refine (proj1 (proj2 (proj2 (bin_columns_frame
            (fun s _ _ => Ok (map (fun _ => Some 0%Z) s))
            Sample.two_columns [(LStr "a", BinMeta tt tt)]))) (LStr "b") _).
  intros Hin. apply list_elem_of_singleton in Hin. discriminate.
Defined.

End DataProcessLoops.

(** ** Deduplication *)

Module DeduplicationFacts.
Import DataProcess ListFacts FrameFacts.

Section Frame.
Context {V : Type} `{EqDecision V}.

Lemma select_cons {A} (b : bool) (mask : list bool) (x : A) (l : list A) :
  select (b :: mask) (x :: l) = if b then x :: select mask l else select mask l.
Proof.
  unfold select. cbn [zip zip_with]. rewrite filter_cons. cbn [fst].
  destruct b; [destruct (decide (true = true)) | destruct (decide (false = true))]; done.
Qed.

Lemma select_nil_r {A} (mask : list bool) : select mask (@nil A) = [].
Proof. by destruct mask. Qed.

Lemma select_all {A} (l : list A) : select (replicate (length l) true) l = l.
Proof. induction l as [|x l IH]; [done|]. cbn [length replicate]. by rewrite select_cons, IH. Qed.

Lemma duplicated_from_length {K} `{EqDecision K} (seen keys : list K) :
  length (duplicated_from seen keys) = length keys.
Proof. revert seen. induction keys as [|k r IH]; intros seen; cbn; [done|]. by rewrite IH. Qed.

(** Keeping the rows that are not flagged keeps one row per key: the
    first. *)
Lemma first_occurrences {K} `{EqDecision K} (keys seen : list K) :
  NoDup (select (invert (duplicated_from seen keys)) keys)
  /\ (forall x, x ∈ select (invert (duplicated_from seen keys)) keys -> x ∉ seen)
  /\ (forall x, x ∈ keys -> x ∉ seen ->
        x ∈ select (invert (duplicated_from seen keys)) keys).
Proof.
  revert seen. induction keys as [|k r IH]; intros seen.
  { cbn. split; [constructor|]. split; intros x Hx; by apply not_elem_of_nil in Hx. }
  cbn [duplicated_from invert map]. rewrite select_cons.
  destruct (IH (k :: seen)) as (Hnd & Hout & Hin).
  destruct (decide (k ∈ seen)) as [Hk|Hk].
  - rewrite (bool_decide_eq_true_2 _ Hk). cbn [negb]. split; [done|]. split.
    + intros x Hx. apply Hout in Hx. apply not_elem_of_cons in Hx. tauto.
    + intros x Hx Hn. apply elem_of_cons in Hx as [->|Hx]; [done|].
      apply Hin; [done|]. apply not_elem_of_cons. split; [|done]. congruence.
  - rewrite (bool_decide_eq_false_2 _ Hk). cbn [negb]. split; [|split].
    + constructor; [|done]. intros Hx. apply Hout in Hx.
      apply Hx. left.
    + intros x Hx. apply elem_of_cons in Hx as [->|Hx]; [done|].
      apply Hout in Hx. apply not_elem_of_cons in Hx. tauto.
    + intros x Hx Hn. apply elem_of_cons in Hx as [->|Hx]; [left|].
      destruct (decide (x = k)) as [->|Hne]; [left|].
      right. apply Hin; [done|]. apply not_elem_of_cons. by split.
Qed.

Lemma no_flags_without_duplicates {K} `{EqDecision K} (keys seen : list K) :
  NoDup keys -> (forall x, x ∈ keys -> x ∉ seen) ->
  invert (duplicated_from seen keys) = replicate (length keys) true.
Proof.
  intros Hnd. revert seen. induction Hnd as [|k r Hk Hnd IH]; intros seen Hout; [done|].
  cbn [duplicated_from invert map length replicate].
  rewrite (bool_decide_eq_false_2 (k ∈ seen)) by (apply Hout; left).
  cbn [negb]. f_equal. apply IH. intros x Hx. apply not_elem_of_cons. split.
  - intros ->. done.
  - apply Hout. by right.
Qed.

(** The rows of a list of columns, and what selecting rows does to
    them. *)
Lemma rows_cons (cs : list (Series V)) (n : nat) :
  map (fun i => map (fun c : Series V => mjoin (c !! i)) cs) (seq 0 (S n))
  = map (fun c : Series V => mjoin (head c)) cs
    :: map (fun i => map (fun c : Series V => mjoin (c !! i)) (map tail cs)) (seq 0 n).
Proof.
  cbn [seq map]. f_equal.
  - apply map_ext. intros c. by destruct c.
  - rewrite <- fmap_S_seq. change (S <$> seq 0 n) with (map S (seq 0 n)).
    rewrite map_map. apply map_ext. intros i.
    rewrite map_map. apply map_ext. intros c. by rewrite lookup_tail.
Qed.

Lemma rows_select (mask : list bool) (cs : list (Series V)) :
  Forall (fun c => length c = length mask) cs ->
  map (fun i => map (fun c : Series V => mjoin (c !! i)) (map (select mask) cs))
      (seq 0 (length (filter (fun b => b = true) mask)))
  = select mask
      (map (fun i => map (fun c : Series V => mjoin (c !! i)) cs) (seq 0 (length mask))).
Proof.
  revert cs. induction mask as [|b mask IH]; intros cs Hlen; [done|].
  cbn [length]. rewrite (rows_cons cs), select_cons.
  assert (Htails : Forall (fun c => length c = length mask) (map tail cs)).
  { apply Forall_forall. intros c Hc. apply list_elem_of_fmap in Hc as (c0 & -> & Hc0).
    rewrite Forall_forall in Hlen. specialize (Hlen c0 Hc0).
    destruct c0; [discriminate|]. cbn in *. lia. }
  assert (Hsel : map tail (map (select (true :: mask)) cs)
                 = map (select mask) (map tail cs)).
  { rewrite !map_map. apply Forall_fmap_ext_1. rewrite Forall_forall in *.
    intros c Hc. specialize (Hlen c Hc). destruct c as [|x c]; [discriminate|].
    by rewrite select_cons. }
  assert (Hheads : map (fun c : Series V => mjoin (head c)) (map (select (true :: mask)) cs)
                   = map (fun c : Series V => mjoin (head c)) cs).
  { rewrite !map_map. apply Forall_fmap_ext_1. rewrite Forall_forall in *.
    intros c Hc. specialize (Hlen c Hc). destruct c as [|x c]; [discriminate|].
    by rewrite select_cons. }
  assert (Hskip : map (select (false :: mask)) cs = map (select mask) (map tail cs)).
  { rewrite map_map. apply map_ext. intros [|x c]; cbn [tail];
      [by rewrite !select_nil_r | by rewrite select_cons]. }
  rewrite filter_cons. destruct b.
  - destruct (decide (true = true)); [|done]. cbn [length].
    rewrite rows_cons, Hheads, Hsel. f_equal. by apply IH.
  - destruct (decide (false = true)); [done|]. rewrite Hskip. by apply IH.
Qed.

Lemma filter_relabel (P : label -> Prop) `{!forall l, Decision (P l)}
    (g : Series V -> Series V) (cols : list (label * Series V)) :
  filter (fun c => P c.1) (map (fun c => (c.1, g c.2)) cols)
  = map (fun c => (c.1, g c.2)) (filter (fun c => P c.1) cols).
Proof.
  induction cols as [|c cols IH]; [done|].
  cbn [map]. rewrite !filter_cons. cbn [fst].
  destruct (decide (P c.1)); cbn [map]; by rewrite IH.
Qed.

(** The frame a deduplication leaves behind, and its keys. *)
Lemma deduplicated (df : DataFrame V) (cols : list label) :
  DataFrame_empty df = false -> cols <> [] -> cols ⊆ col_labels df ->
  remove_duplicate_rows_by_columns df cols
  = (Ok None,
     mkDF (select (invert (duplicated_from [] (row_keys df cols))) (index df))
          (map (fun c => (c.1, select (invert (duplicated_from [] (row_keys df cols))) c.2))
               (columns df))).
Proof.
  intros He Hne Hsub.
  unfold remove_duplicate_rows_by_columns, drop_duplicates_inplace, duplicated.
  rewrite He.
  rewrite (filter_none (fun l => l ∉ col_labels df))
    by (intros x Hx Hn; apply Hn, Hsub, Hx).
  by destruct cols.
Qed.

(** An empty frame is handed back as it is. *)
Lemma untouched_when_empty (df : DataFrame V) (cols : list label) :
  DataFrame_empty df = true ->
  remove_duplicate_rows_by_columns df cols = (Ok (Some df), df).
Proof.
  intros He. unfold remove_duplicate_rows_by_columns, drop_duplicates_inplace.
  by rewrite He.
Qed.

(** A frame that has one of the listed columns is empty only for want
    of rows. *)
Lemma empty_without_rows (df : DataFrame V) (cols : list label) :
  cols <> [] -> cols ⊆ col_labels df -> DataFrame_empty df = true -> index df = [].
Proof.
  intros Hne Hsub He. unfold DataFrame_empty in He.
  apply orb_true_iff in He as [He|He]; apply bool_decide_eq_true_1 in He; [done|].
  destruct cols as [|c cols]; [done|].
  assert (Hc : c ∈ col_labels df) by (apply Hsub; left).
  unfold col_labels in Hc. rewrite He in Hc. by apply not_elem_of_nil in Hc.
Qed.

(** The first row is never flagged, so a frame with rows keeps one. *)
Lemma kept_first_row (df : DataFrame V) (cols : list label) :
  DataFrame_empty df = false ->
  DataFrame_empty
    (mkDF (select (invert (duplicated_from [] (row_keys df cols))) (index df))
          (map (fun c => (c.1, select (invert (duplicated_from [] (row_keys df cols))) c.2))
               (columns df))) = false.
Proof.
  unfold DataFrame_empty. intros He.
  apply orb_false_iff in He as [Hrows Hcols].
  apply bool_decide_eq_false_1 in Hrows. apply bool_decide_eq_false_1 in Hcols.
  cbn [index columns]. apply orb_false_iff. split; apply bool_decide_eq_false_2.
  - unfold row_keys, nrows. destruct (index df) as [|r idx]; [done|].
    cbn [length seq map duplicated_from invert].
    rewrite (bool_decide_eq_false_2 (_ ∈ [])) by apply not_elem_of_nil.
    cbn [negb]. by rewrite select_cons.
  - by destruct (columns df).
Qed.

Lemma row_keys_length (df : DataFrame V) (cols : list label) :
  length (row_keys df cols) = nrows df.
Proof. unfold row_keys. by rewrite length_map, length_seq. Qed.

Lemma row_keys_deduplicated (df : DataFrame V) (cols : list label) :
  wf df ->
  let keep := invert (duplicated_from [] (row_keys df cols)) in
  row_keys (mkDF (select keep (index df))
                 (map (fun c => (c.1, select keep c.2)) (columns df))) cols
  = select keep (row_keys df cols).
Proof.
  intros Hwf keep.
  assert (Hkeep : length keep = nrows df).
  { unfold keep, invert. by rewrite length_map, duplicated_from_length, row_keys_length. }
  unfold row_keys at 1. unfold nrows at 1. cbn [index columns].
  rewrite select_length by done.
  set (fc := filter (fun c : label * Series V => c.1 ∈ cols) (columns df)).
  transitivity
    (map (fun i => map (fun c : Series V => mjoin (c !! i)) (map (select keep) (map snd fc)))
         (seq 0 (length (filter (fun b => b = true) keep)))).
  { assert (Hf : filter (fun c : label * Series V => c.1 ∈ cols)
                   (map (fun c : label * Series V => (c.1, select keep c.2)) (columns df))
                 = map (fun c : label * Series V => (c.1, select keep c.2)) fc)
      by exact (filter_relabel (fun l => l ∈ cols) (select keep) (columns df)).
    apply map_ext. intros i. rewrite Hf. by rewrite !map_map. }
  rewrite rows_select.
  - f_equal. unfold row_keys. fold fc. rewrite Hkeep.
    apply map_ext. intros i. by rewrite map_map.
  - apply Forall_forall. intros s Hs.
    apply list_elem_of_fmap in Hs as (c & -> & Hc).
    apply list_elem_of_filter in Hc as [_ Hc].
    unfold wf in Hwf. rewrite Forall_forall in Hwf. rewrite Hkeep. by apply Hwf.
Qed.

Lemma deduplicated_frame (df : DataFrame V) (cols : list label) :
  wf df -> cols <> [] -> cols ⊆ col_labels df ->
  NoDup (row_keys (remove_duplicate_rows_by_columns df cols).2 cols)
  /\ (forall k, k ∈ row_keys df cols ->
        k ∈ row_keys (remove_duplicate_rows_by_columns df cols).2 cols)
  /\ wf (remove_duplicate_rows_by_columns df cols).2
  /\ col_labels (remove_duplicate_rows_by_columns df cols).2 = col_labels df
  /\ index (remove_duplicate_rows_by_columns df cols).2 `sublist_of` index df.
Proof.
  intros Hwf Hne Hsub. destruct (DataFrame_empty df) eqn:He.
  { rewrite (untouched_when_empty df cols He). cbn [snd].
    assert (Hkeys : row_keys df cols = []).
    { unfold row_keys, nrows. by rewrite (empty_without_rows df cols Hne Hsub He). }
    rewrite Hkeys. split; [constructor|]. by repeat split. }
  rewrite (deduplicated df cols He Hne Hsub). cbn [snd].
  rewrite (row_keys_deduplicated df cols Hwf).
  destruct (first_occurrences (row_keys df cols) []) as (Hnd & _ & Hin).
  assert (Hkeep : length (invert (duplicated_from [] (row_keys df cols))) = nrows df).
  { unfold invert. by rewrite length_map, duplicated_from_length, row_keys_length. }
  split; [done|]. split; [intros k Hk; apply Hin; [done | apply not_elem_of_nil]|].
  split.
  - unfold wf. cbn [index columns]. apply Forall_forall. intros c Hc.
    apply list_elem_of_fmap in Hc as (c0 & -> & Hc0). cbn [snd].
    unfold wf in Hwf. rewrite Forall_forall in Hwf.
    rewrite !select_length; [done|done|]. rewrite Hkeep. unfold nrows.
    symmetry. by apply Hwf.
  - split; [|cbn [index]; apply select_sublist].
    unfold col_labels. cbn [columns].
    change (map ?f ?l) with (f <$> l). rewrite <- list_fmap_compose.
    by apply list_fmap_ext.
Qed.

(** X10. After [remove_duplicate_rows_by_columns] the caller's frame holds
    no two rows that agree on the listed columns, and every key of the
    input is still there; the frame is well formed, has the column labels
    of the input, and its rows are among the rows of the input, in their
    order. *)
Theorem remove_duplicate_rows_by_columns_leaves_distinct_keys
    (df : DataFrame V) (cols : list label) :
  wf df -> cols <> [] -> cols ⊆ col_labels df ->
  NoDup (row_keys (remove_duplicate_rows_by_columns df cols).2 cols)
  /\ (forall k, k ∈ row_keys df cols ->
        k ∈ row_keys (remove_duplicate_rows_by_columns df cols).2 cols)
  /\ wf (remove_duplicate_rows_by_columns df cols).2
  /\ col_labels (remove_duplicate_rows_by_columns df cols).2 = col_labels df
  /\ index (remove_duplicate_rows_by_columns df cols).2 `sublist_of` index df.
Proof.
  intros Hwf Hne Hsub. exact (deduplicated_frame df cols Hwf Hne Hsub).
Qed.

(** X11. Deduplicating twice is deduplicating once: on the frame the first
    call leaves behind, a second call changes nothing and returns what
    the first call returned.  On a frame with at least one row that value
    is the absent one. *)
Theorem remove_duplicate_rows_by_columns_twice (df : DataFrame V) (cols : list label) :
  wf df -> cols <> [] -> cols ⊆ col_labels df ->
  remove_duplicate_rows_by_columns (remove_duplicate_rows_by_columns df cols).2 cols
  = ((remove_duplicate_rows_by_columns df cols).1,
     (remove_duplicate_rows_by_columns df cols).2)
  /\ (index df <> [] -> (remove_duplicate_rows_by_columns df cols).1 = Ok None).
Proof.
  intros Hwf Hne Hsub.
  destruct (deduplicated_frame df cols Hwf Hne Hsub) as (Hnd & _ & Hwf' & Hlab & _).
  destruct (DataFrame_empty df) eqn:He.
  { rewrite (untouched_when_empty df cols He). cbn [fst snd]. split.
    - apply (untouched_when_empty df cols He).
    - intros Hrows. destruct Hrows. by apply (empty_without_rows df cols). }
  assert (He' : DataFrame_empty (remove_duplicate_rows_by_columns df cols).2 = false).
  { rewrite (deduplicated df cols He Hne Hsub). cbn [snd]. by apply kept_first_row. }
  assert (Hret : (remove_duplicate_rows_by_columns df cols).1 = Ok None)
    by (by rewrite (deduplicated df cols He Hne Hsub)).
  rewrite Hret. split; [|done]. clear Hret.
  remember (remove_duplicate_rows_by_columns df cols).2 as df' eqn:Hdf'. clear Hdf'.
  rewrite (deduplicated df' cols He' Hne) by (by rewrite Hlab).
  rewrite (no_flags_without_duplicates _ [] Hnd) by (intros; apply not_elem_of_nil).
  rewrite row_keys_length. f_equal. destruct df' as [idx cs]. unfold nrows. cbn [index columns].
  f_equal; [apply select_all|].
  unfold wf in Hwf'. cbn [index columns] in Hwf'. clear -Hwf'.
  induction Hwf' as [|c cs Hc Hcs IH]; [done|].
  cbn [map]. rewrite IH. f_equal. destruct c as [l s]. cbn [fst snd] in *.
  by rewrite <- Hc, select_all.
Qed.

End Frame.

(** Rows 0 and 1 agree on column "a". *)
Lemma remove_duplicate_rows_by_columns_leaves_distinct_keys_witness :
  NoDup (row_keys (remove_duplicate_rows_by_columns
                     (mkDF [LInt 0; LInt 1; LInt 2]
                           [(LStr "a", [Some 1%Z; Some 1%Z; Some 2%Z])])
                     [LStr "a"]).2 [LStr "a"]).
Proof.
  refine (proj1 (remove_duplicate_rows_by_columns_leaves_distinct_keys
                   (mkDF [LInt 0; LInt 1; LInt 2]
                         [(LStr "a", [Some 1%Z; Some 1%Z; Some 2%Z])])
                   [LStr "a"] _ _ _)).
  - repeat constructor.
  - discriminate.
  - intros x Hx. apply list_elem_of_singleton in Hx as ->. left.
Defined.

Lemma remove_duplicate_rows_by_columns_twice_witness :
  remove_duplicate_rows_by_columns
    (remove_duplicate_rows_by_columns
       (mkDF [LInt 0; LInt 1; LInt 2] [(LStr "a", [Some 1%Z; Some 1%Z; Some 2%Z])])
       [LStr "a"]).2 [LStr "a"]
  = ((remove_duplicate_rows_by_columns
        (mkDF [LInt 0; LInt 1; LInt 2] [(LStr "a", [Some 1%Z; Some 1%Z; Some 2%Z])])
        [LStr "a"]).1,
     (remove_duplicate_rows_by_columns
        (mkDF [LInt 0; LInt 1; LInt 2] [(LStr "a", [Some 1%Z; Some 1%Z; Some 2%Z])])
        [LStr "a"]).2)
  /\ (index (mkDF [LInt 0; LInt 1; LInt 2]
                  [(LStr "a", [Some 1%Z; Some 1%Z; Some 2%Z])]) <> [] ->
      (remove_duplicate_rows_by_columns
         (mkDF [LInt 0; LInt 1; LInt 2] [(LStr "a", [Some 1%Z; Some 1%Z; Some 2%Z])])
         [LStr "a"]).1 = Ok None).
Proof.
  refine (remove_duplicate_rows_by_columns_twice
            (mkDF [LInt 0; LInt 1; LInt 2] [(LStr "a", [Some 1%Z; Some 1%Z; Some 2%Z])])
            [LStr "a"] _ _ _).
  - repeat constructor.
  - discriminate.
  - intros x Hx. apply list_elem_of_singleton in Hx as ->. left.
Defined.

End DeduplicationFacts.

(** ** Further properties of class MissingValue *)

Module MissingValueMore.
Import MissingValue Reference ListFacts FrameFacts MissingValueFacts.

Section Drop.
Context {V : Type} `{EqDecision V}.

(** X12. For a rate below 1 the call succeeds exactly when every label it
    hands to the drop (the [columns] argument, by default the column
    labels) is a row label of the frame; otherwise it raises a key error
    that lists the labels that are no row labels.  A frame whose rows are
    numbered and whose columns are named is therefore always refused. *)
Theorem remove_missing_columns_needs_row_labels
    (df : DataFrame V) (cols : option (list label)) (r : Q) :
  (0 <= r)%Q -> (r < 1)%Q ->
  ((exists d, remove_missing_columns df cols r = Ok d)
   <-> or_else cols (col_labels df) ⊆ index df)
  /\ (~ or_else cols (col_labels df) ⊆ index df ->
      remove_missing_columns df cols r
      = Raise (KeyError (filter (fun l => l ∉ index df)
                                (or_else cols (col_labels df))))).
Proof.
  intros H0 H1.
  rewrite (MissingValueFacts.remove_missing_columns_dropna df cols r H0 H1).
  unfold dropna_columns.
  destruct (filter (fun l => l ∉ index df) (or_else cols (col_labels df)))
    as [|m ms] eqn:Hf.
  - assert (Hsub : or_else cols (col_labels df) ⊆ index df).
    { intros x Hx. destruct (decide (x ∈ index df)) as [|Hn]; [done|].
      by apply (filter_nil_inv _ _ Hf x Hx) in Hn. }
    split; [split; [done | eauto]|]. intros Hno. by destruct Hno.
  - assert (Hno : ~ or_else cols (col_labels df) ⊆ index df).
    { intros Hsub.
      assert (Hm : m ∈ filter (fun l => l ∉ index df) (or_else cols (col_labels df)))
        by (rewrite Hf; left).
      apply list_elem_of_filter in Hm as [Hm1 Hm2]. by apply Hm1, Hsub. }
    split; [|done]. split; [intros [d Hd]; discriminate | done].
Qed.

Lemma dropna_columns_sublist (df d : DataFrame V) (t : Z) (subset : list label) :
  dropna_columns df t subset = Ok d ->
  index d = index df /\ columns d `sublist_of` columns df.
Proof.
  unfold dropna_columns. destruct (filter _ _); [|discriminate].
  intros [= <-]. unfold loc_columns. cbn [index columns].
  split; [done | apply select_sublist].
Qed.

(** X13. Whenever the call returns a frame, that frame has the rows of the
    input and a sublist of its columns, each with its cells: nothing is
    added, reordered or edited. *)
Theorem remove_missing_columns_only_drops
    (df d : DataFrame V) (cols : option (list label)) (r : Q) :
  remove_missing_columns df cols r = Ok d ->
  index d = index df
  /\ columns d `sublist_of` columns df
  /\ (wf df -> wf d).
Proof.
  unfold remove_missing_columns.
  destruct (negb _); [discriminate|].
  destruct (Qeq_bool r 1).
  { intros [= <-]. split; [done|]. split; [done|]. done. }
  intros [Hidx Hsub]%dropna_columns_sublist.
  split; [done|]. split; [done|].
  unfold wf. rewrite Hidx, !Forall_forall. intros Hwf c Hc.
  apply Hwf. revert Hc. by apply sublist_subseteq.
Qed.

(** X14. A larger rate is more lenient: if the call returns at some rate,
    it returns at every larger rate up to 1, and every column kept at the
    smaller rate is kept at the larger one. *)
Theorem remove_missing_columns_monotone
    (df d : DataFrame V) (cols : option (list label)) (r r' : Q) :
  (0 <= r)%Q -> (r <= r')%Q -> (r' <= 1)%Q ->
  remove_missing_columns df cols r = Ok d ->
  exists d', remove_missing_columns df cols r' = Ok d'
             /\ columns d ⊆ columns d'.
Proof.
  intros H0 Hle H1 Hd.
  destruct (Qlt_le_dec r' 1) as [Hlt|Hge].
  - assert (Hr : (r < 1)%Q) by (eapply Qle_lt_trans; eauto).
    assert (H0' : (0 <= r')%Q) by (eapply Qle_trans; eauto).
    rewrite (MissingValueFacts.remove_missing_columns_dropna df cols r H0 Hr) in Hd.
    rewrite (MissingValueFacts.remove_missing_columns_dropna df cols r' H0' Hlt).
    assert (Hfloor : (Qfloor (inject_Z (Z.of_nat (nrows df)) * (1 - r'))
                      <= Qfloor (inject_Z (Z.of_nat (nrows df)) * (1 - r)))%Z).
    { apply Qfloor_resp_le.
      rewrite !(Qmult_comm (inject_Z _)). apply Qmult_le_compat_r.
      - unfold Qminus. apply Qplus_le_compat; [apply Qle_refl | by apply Qopp_le_compat].
      - change 0%Q with (inject_Z 0). rewrite <- Zle_Qle. lia. }
    set (t := Qfloor (inject_Z (Z.of_nat (nrows df)) * (1 - r))) in *.
    set (t' := Qfloor (inject_Z (Z.of_nat (nrows df)) * (1 - r'))) in *.
    clearbody t t'.
    unfold dropna_columns in *.
    destruct (filter (fun l => l ∉ index df) (or_else cols (col_labels df)));
      [|discriminate].
    injection Hd as <-. eexists. split; [reflexivity|].
    unfold loc_columns. cbn [columns].
    rewrite (select_map_filter (fun c => (t <=? Z.of_nat (count (take_rows _ c.2)))%Z)).
    rewrite (select_map_filter (fun c => (t' <=? Z.of_nat (count (take_rows _ c.2)))%Z)).
    intros c Hc. apply list_elem_of_filter in Hc as [Hc1 Hc2].
    apply list_elem_of_filter. split; [|done].
    apply Z.leb_le in Hc1. apply Z.leb_le. lia.
  - assert (Heq : r' == 1) by (by apply Qle_antisym).
    exists df. split.
    + unfold remove_missing_columns.
      rewrite (proj2 (Qle_bool_iff 0 r')) by (rewrite Heq; discriminate).
      rewrite (proj2 (Qle_bool_iff r' 1)) by done.
      cbn [andb negb]. by rewrite (Qeq_eq_bool _ _ Heq).
    + unfold remove_missing_columns in Hd.
      destruct (negb _); [discriminate|].
      destruct (Qeq_bool r 1); [by injection Hd as <-|].
      apply sublist_subseteq. by apply dropna_columns_sublist in Hd as [_ ?].
Qed.

End Drop.

Section Fill.
Context {V : Type} `{EqDecision V}.

(** Looking a label up after a column-wise edit that keeps the labels. *)
Lemma find_relabel {A B} (h : label * A -> label * B)
    (cols : list (label * A)) (l : label) :
  (forall c, (h c).1 = c.1) ->
  find (fun c => bool_decide (c.1 = l)) (map h cols)
  = h <$> find (fun c => bool_decide (c.1 = l)) cols.
Proof.
  intros Hh. induction cols as [|c cols IH]; [done|].
  cbn [map find]. rewrite Hh. by destruct (bool_decide (c.1 = l)).
Qed.

Lemma find_unique (cols : list (label * Series V)) (l : label) (s : Series V) :
  NoDup cols.*1 -> (l, s) ∈ cols ->
  find (fun c => bool_decide (c.1 = l)) cols = Some (l, s).
Proof.
  induction cols as [|c cols IH]; intros Hnd Hin; [by apply not_elem_of_nil in Hin|].
  cbn [fmap list_fmap] in Hnd. apply NoDup_cons in Hnd as [Hc Hnd].
  cbn [find]. apply elem_of_cons in Hin as [<-|Hin].
  - cbn [fst]. by rewrite (bool_decide_eq_true_2 _ eq_refl).
  - rewrite bool_decide_eq_false_2; [by apply IH|].
    intros Heq. apply Hc. rewrite Heq. by apply (list_elem_of_fmap_2 fst) in Hin.
Qed.

Lemma fill_cell_complete (v : V) (s : Series V) : None ∉ map (fill_cell v) s.
Proof.
  intros Hin. apply list_elem_of_fmap in Hin as (x & Hx & _). by destruct x.
Qed.

Lemma fill_cell_present (v : V) (s : Series V) (i : nat) (x : V) :
  s !! i = Some (Some x) -> map (fill_cell v) s !! i = Some (Some x).
Proof.
  intros Hs. change (map ?f ?l) with (f <$> l). by rewrite list_lookup_fmap, Hs.
Qed.

Lemma fill_cell_id (v : V) (s : Series V) : None ∉ s -> map (fill_cell v) s = s.
Proof.
  induction s as [|x s IH]; intros Hn; [done|].
  cbn [map]. rewrite IH by (intros ?; apply Hn; by right).
  destruct x; [done|]. exfalso. apply Hn. left.
Qed.

(** X15. The constant fill leaves no missing cell anywhere in the frame and
    edits nothing else: the rows and the column labels stay, every column
    keeps its length and its present cells, and filling the result again,
    with any value, changes nothing.  Without a value the call is
    refused. *)
Theorem fill_na_by_custom_value_completes
    (df : DataFrame V) (cols : option (list label)) (v : V) :
  exists d,
    fill_na_by_custom_value df cols (Some v) = Ok d
    /\ index d = index df
    /\ col_labels d = col_labels df
    /\ (forall c, c ∈ columns d -> None ∉ c.2)
    /\ (forall l s, getitem df l = Ok s ->
          exists s', getitem d l = Ok s' /\ length s' = length s
                     /\ forall i x, s !! i = Some (Some x) -> s' !! i = Some (Some x))
    /\ (forall cols' w, fill_na_by_custom_value d cols' (Some w) = Ok d)
    /\ (exists msg, fill_na_by_custom_value df cols None = Raise (ValueError msg)).
Proof.
  unfold fill_na_by_custom_value, fillna_value.
  eexists. split; [reflexivity|]. unfold map_columns. cbn [index columns].
  split; [done|]. split.
  { unfold col_labels. cbn [columns]. change (map ?f ?l) with (f <$> l).
    rewrite <- list_fmap_compose. by apply list_fmap_ext. }
  split.
  { intros c Hc. apply list_elem_of_fmap in Hc as (c0 & -> & _). apply fill_cell_complete. }
  split.
  { intros l s. unfold getitem. cbn [columns].
    rewrite (find_relabel (fun c => (c.1, map (fill_cell v) c.2))) by done.
    destruct (find _ (columns df)) as [c|]; [|discriminate].
    intros [= <-]. eexists. split; [reflexivity|]. cbn [snd].
    split; [by rewrite length_map | apply fill_cell_present]. }
  split; [|eauto].
  intros _ w. f_equal. f_equal. rewrite map_map. cbn [fst snd].
  induction (columns df) as [|c cs IH]; [done|].
  cbn [map]. rewrite IH. by rewrite (fill_cell_id w) by apply fill_cell_complete.
Qed.

(** *** Forward and backward fill *)

Lemma ffill_from_twice (carried : option V) (s : Series V) :
  ffill_from carried (ffill_from carried s) = ffill_from carried s.
Proof.
  revert carried. induction s as [|[v|] s IH]; intros carried; [done| |].
  - cbn [ffill_from]. by rewrite IH.
  - cbn [ffill_from]. destruct carried; cbn [ffill_from]; by rewrite IH.
Qed.

Lemma bfill_twice (s : Series V) : bfill (bfill s) = bfill s.
Proof.
  induction s as [|x s IH]; [done|].
  cbn [bfill]. destruct x as [v|]; cbn [bfill]; rewrite IH; [done|].
  by destruct (mjoin (head (bfill s))).
Qed.

Lemma ffill_from_Some_complete (v : V) (s : Series V) : None ∉ ffill_from (Some v) s.
Proof.
  revert v. induction s as [|[x|] s IH]; intros v; cbn [ffill_from].
  - apply not_elem_of_nil.
  - apply not_elem_of_cons. split; [done | apply IH].
  - apply not_elem_of_cons. split; [done | apply IH].
Qed.

Lemma bfill_complete_id (s : Series V) : None ∉ s -> bfill s = s.
Proof.
  induction s as [|x s IH]; intros Hn; [done|].
  cbn [bfill]. rewrite IH by (intros ?; apply Hn; by right).
  destruct x; [done|]. exfalso. apply Hn. left.
Qed.

(** A forward fill followed by a backward fill leaves a gap only in a
    column that has no value at all. *)
Lemma bfill_ffill_complete (s : Series V) :
  (exists v, Some v ∈ s) -> None ∉ bfill (ffill s).
Proof.
  unfold ffill. induction s as [|[x|] s IH]; intros [v Hv].
  - by apply not_elem_of_nil in Hv.
  - cbn [ffill_from].
    rewrite bfill_complete_id.
    + apply not_elem_of_cons. split; [done | apply ffill_from_Some_complete].
    + apply not_elem_of_cons. split; [done | apply ffill_from_Some_complete].
  - apply elem_of_cons in Hv as [[=]|Hv].
    specialize (IH (ex_intro _ v Hv)).
    cbn [ffill_from bfill]. apply not_elem_of_cons. split; [|done].
    destruct (bfill (ffill_from None s)) as [|y t] eqn:Hb.
    + apply (f_equal length) in Hb. rewrite bfill_length, ffill_from_length in Hb.
      destruct s; [by apply not_elem_of_nil in Hv | discriminate].
    + cbn. destruct y; [done|]. exfalso. apply IH. left.
Qed.

(** X16. Filling twice in one direction is filling once. *)
Theorem fill_na_forward_or_backward_twice
    (df d : DataFrame V) (cols cols' : option (list label)) (method : string) :
  fill_na_forward_or_backward df cols method = Ok d ->
  fill_na_forward_or_backward d cols' method = Ok d.
Proof.
  unfold fill_na_forward_or_backward, fillna_method.
  destruct (negb _); [discriminate|].
  destruct (bool_decide (method ∈ ["ffill"; "pad"]));
    [|destruct (bool_decide (method ∈ ["bfill"; "backfill"])); [|discriminate]];
    intros [= <-]; f_equal; unfold map_columns; cbn [index columns]; f_equal;
    rewrite map_map; apply map_ext; intros c; cbn [fst snd]; f_equal.
  - apply ffill_from_twice.
  - apply bfill_twice.
Qed.

(** X17. Forward then backward: the two calls in a row return a frame with
    the rows and the column labels of the input, in which every column
    keeps its length and its present cells, has no missing cell left as
    soon as the input column holds one value, and is the input column when
    that holds none. *)
Theorem fill_forward_then_backward_completes
    (df : DataFrame V) (cols cols' : option (list label)) :
  exists d1 d2,
    fill_na_forward_or_backward df cols "ffill" = Ok d1
    /\ fill_na_forward_or_backward d1 cols' "bfill" = Ok d2
    /\ index d2 = index df
    /\ col_labels d2 = col_labels df
    /\ forall j l s, columns df !! j = Some (l, s) ->
         exists s', columns d2 !! j = Some (l, s')
                    /\ length s' = length s
                    /\ (forall i v, s !! i = Some (Some v) -> s' !! i = Some (Some v))
                    /\ ((exists v, Some v ∈ s) -> None ∉ s')
                    /\ ((forall x, x ∈ s -> x = None) -> s' = s).
Proof.
  exists (map_columns ffill df), (map_columns bfill (map_columns ffill df)).
  split; [reflexivity|]. split; [reflexivity|]. split; [done|].
  split; [by rewrite !map_columns_labels|].
  intros j l s Hj. exists (bfill (ffill s)).
  split; [by do 2 apply map_columns_lookup|].
  split; [unfold ffill; by rewrite bfill_length, ffill_from_length|].
  split; [|split].
  - intros i v Hi. unfold ffill. by rewrite bfill_lookup, ffill_from_lookup, Hi.
  - apply bfill_ffill_complete.
  - intros Hall. unfold ffill. clear Hj. induction s as [|x s IH]; [done|].
    rewrite (Hall x) by left. cbn [ffill_from bfill].
    rewrite IH by (intros y Hy; apply Hall; by right).
    destruct s as [|y s]; [done|]. by rewrite (Hall y) by (right; left).
Qed.

(** *** The rolling fill *)

(** X18. The rolling fill never returns a frame.  An unknown method is
    refused; with a known method, existing columns and a window that is
    not negative, the call ends in the attribute error of the missing
    [transform] (or, with a column of that name, in a type error). *)
Theorem fill_na_by_rolling_never_returns
    (df : DataFrame V) (cols : option (list label)) (method : string)
    (window_size : option Z) (center : bool) :
  (forall d, fill_na_by_rolling df cols method window_size center <> Ok d)
  /\ (method ∉ ["mean"; "median"; "mode"] ->
      fill_na_by_rolling df cols method window_size center
      = Raise (ValueError "Invalid method. Choose 'mean', 'median', or 'mode'"))
  /\ (method ∈ ["mean"; "median"; "mode"] ->
      or_else cols (col_labels df) ⊆ col_labels df ->
      (0 <= or_else_int window_size (Z.of_nat (nrows df)))%Z ->
      LStr "transform" ∉ col_labels df ->
      fill_na_by_rolling df cols method window_size center
      = Raise (AttributeError "'Rolling' object has no attribute 'transform'")).
Proof.
  unfold fill_na_by_rolling. split; [|split].
  - intros d. destruct (negb _); [discriminate|].
    destruct (getitem_list df _); [|discriminate].
    destruct (rolling df _ center) as [r|e]; [|discriminate].
    cbn. unfold Rolling_transform. by destruct (bool_decide _).
  - intros Hm. by rewrite (bool_decide_eq_false_2 _ Hm).
  - intros Hm Hsub Hw Hcol. rewrite (bool_decide_eq_true_2 _ Hm). cbn [negb].
    unfold getitem_list.
    rewrite (filter_none (fun l => l ∉ col_labels df))
      by (intros x Hx Hn; apply Hn, Hsub, Hx).
    unfold rolling. rewrite (proj2 (Z.ltb_ge _ 0) Hw). cbn.
    unfold Rolling_transform. cbn [obj]. by rewrite (bool_decide_eq_false_2 _ Hcol).
Qed.

End Fill.

(** *** Imputation by a statistic *)

Lemma present_nil (s : Series Q) : (forall x, x ∈ s -> x = None) -> Stats.present s = [].
Proof.
  intros Hall. unfold Stats.present. induction s as [|x s IH]; [done|].
  rewrite (Hall x) by left. cbn. apply IH. intros y Hy. apply Hall. by right.
Qed.

(** Neither statistic is defined on a column without values. *)
Lemma mean_undefined (s : Series Q) :
  (forall x, x ∈ s -> x = None) -> Stats.mean s = None.
Proof. intros Hall. unfold Stats.mean. by rewrite present_nil. Qed.

Lemma median_undefined (s : Series Q) :
  (forall x, x ∈ s -> x = None) -> Stats.median s = None.
Proof. intros Hall. unfold Stats.median. by rewrite present_nil. Qed.

Lemma at_labels_absent (other : DataFrame Q) (r c : label) :
  r ∉ index other -> at_labels other r c = None.
Proof.
  intros Hout. unfold at_labels, positions. destruct (find _ _); [|done].
  rewrite (filter_none (fun j => index other !! j = Some r)); [done|].
  intros j _ Hj. apply Hout. by eapply list_elem_of_lookup_2.
Qed.

(** The column a label names after [fillna] with the per-column
    statistic of the frame itself. *)
Lemma getitem_fillna_own_statistic (stat : Series Q -> option Q)
    (df : DataFrame Q) (l : label) (s : Series Q) :
  NoDup (col_labels df) -> (l, s) ∈ columns df ->
  getitem (fillna_series df (map (fun c => (c.1, stat c.2)) (columns df))) l
  = Ok (match stat s with
        | Some v => map (fill_cell v) s
        | None => s
        end).
Proof.
  intros Hnd Hin. unfold getitem, fillna_series. cbn [columns].
  set (stats := map (fun c : label * Series Q => (c.1, stat c.2)) (columns df)).
  rewrite (find_relabel
             (fun c => match mjoin (snd <$> find (fun e => bool_decide (e.1 = c.1)) stats) with
                       | Some v => (c.1, map (fill_cell v) c.2)
                       | None => c
                       end)).
  2:{ intros c. by destruct (mjoin _). }
  rewrite (find_unique _ _ _ Hnd Hin). cbn [fmap option_fmap option_map fst snd].
  unfold stats.
  rewrite (find_relabel (fun c : label * Series Q => (c.1, stat c.2))) by done.
  rewrite (find_unique _ _ _ Hnd Hin). cbn [fmap option_fmap option_map snd mjoin option_join].
  by destruct (stat s).
Qed.

(** X19. With the mean or the median, on a frame with distinct column
    labels, the call returns a frame with the rows of the input in which
    every column is treated on its own: it keeps its length and its
    present cells, all its gaps receive one and the same value, and a
    column that holds no value at all is returned as it is.  On the frame
    whose column "a" is [1, missing, 3] the median puts 2 into the gap. *)
Theorem fill_na_by_statistics_keeps_present_cells
    (df : DataFrame Q) (cols : option (list label)) (method : string) :
  method ∈ ["mean"; "median"] -> NoDup (col_labels df) ->
  (exists d,
    fill_na_by_statistics df cols method = Ok d
    /\ index d = index df
    /\ forall l s, (l, s) ∈ columns df ->
         exists s', getitem d l = Ok s'
                    /\ length s' = length s
                    /\ (forall i x, s !! i = Some (Some x) -> s' !! i = Some (Some x))
                    /\ (forall i j, s !! i = Some None -> s !! j = Some None ->
                          s' !! i = s' !! j)
                    /\ ((forall x, x ∈ s -> x = None) -> s' = s))
  /\ fill_na_by_statistics Sample.gaps None "median"
     = Ok (mkDF [LInt 0; LInt 1; LInt 2]
                [(LStr "a", [Some 1%Q; Some 2%Q; Some 3%Q]);
                 (LStr "b", [Some 4%Q; Some 4%Q; Some 4%Q])]).
Proof.
  intros Hm Hnd. split; [|reflexivity].
  assert (Hstat : exists stat : Series Q -> option Q,
             fill_na_by_statistics df cols method
             = Ok (fillna_series df (map (fun c => (c.1, stat c.2)) (columns df)))
             /\ forall s, (forall x, x ∈ s -> x = None) -> stat s = None).
  { apply elem_of_cons in Hm as [->|Hm].
    - exists Stats.mean. split; [reflexivity | apply mean_undefined].
    - apply list_elem_of_singleton in Hm as ->.
      exists Stats.median. split; [reflexivity | apply median_undefined]. }
  destruct Hstat as (stat & -> & Hdef).
  eexists. split; [reflexivity|]. split; [done|].
  intros l s Hin. rewrite (getitem_fillna_own_statistic stat df l s Hnd Hin).
  eexists. split; [reflexivity|].
  specialize (Hdef s). destruct (stat s) as [m|].
  - split; [by rewrite length_map|]. split; [apply fill_cell_present|]. split.
    + intros i j Hi Hj. change (map ?f ?l) with (f <$> l).
      by rewrite !list_lookup_fmap, Hi, Hj.
    + intros Hall. by specialize (Hdef Hall).
  - split; [done|]. split; [done|]. split; [|done].
    intros i j Hi Hj. by rewrite Hi, Hj.
Qed.

(** X21. With the mode the fill goes through the frame of modes, whose rows
    are labelled 0, 1, ...: a missing cell in a row whose label is not a
    row label of that frame stays missing. *)
Theorem fill_na_by_statistics_mode_by_row_label
    (df : DataFrame Q) (cols : option (list label)) (l : label) (s : Series Q)
    (i : nat) (r : label) :
  NoDup (col_labels df) -> (l, s) ∈ columns df ->
  index df !! i = Some r -> s !! i = Some None ->
  r ∉ index (Stats.DataFrame_mode df) ->
  exists d s',
    fill_na_by_statistics df cols "mode" = Ok d
    /\ getitem d l = Ok s'
    /\ s' !! i = Some None.
Proof.
  intros Hnd Hin Hr Hs Hout.
  exists (fillna_frame df (Stats.DataFrame_mode df)). eexists.
  split; [reflexivity|]. unfold getitem, fillna_frame. cbn [columns].
  rewrite (find_relabel
             (fun c : label * Series Q =>
                (c.1, zip_with (fun r x => match x with
                                           | Some a => Some a
                                           | None => at_labels (Stats.DataFrame_mode df) r c.1
                                           end) (index df) c.2))) by done.
  rewrite (find_unique _ _ _ Hnd Hin). cbn [fmap option_fmap option_map fst snd].
  split; [reflexivity|].
  rewrite lookup_zip_with, Hr, Hs. cbn [mbind option_bind].
  by rewrite (at_labels_absent _ _ _ Hout).
Qed.

(** The row labels of the frame of modes: 0 up to the largest number
    of modes a column has. *)
Lemma mode_frame_index (df : DataFrame Q) :
  index (Stats.DataFrame_mode df)
  = map (fun j => LInt (Z.of_nat j))
        (seq 0 (fold_right Nat.max 0%nat
                  (map (fun c => length (Stats.modes c.2)) (columns df)))).
Proof. reflexivity. Qed.


(** The square frame, whose column labels are its row labels. *)
Lemma remove_missing_columns_needs_row_labels_witness :
  ((exists d, remove_missing_columns Sample.square None (1 # 2) = Ok d)
   <-> or_else None (col_labels Sample.square) ⊆ index Sample.square)
  /\ (~ or_else None (col_labels Sample.square) ⊆ index Sample.square ->
      remove_missing_columns Sample.square None (1 # 2)
      = Raise (KeyError (filter (fun l => l ∉ index Sample.square)
                                (or_else None (col_labels Sample.square))))).
Proof.
  refine (remove_missing_columns_needs_row_labels Sample.square None (1 # 2) _ _).
  - discriminate.
  - reflexivity.
Defined.

Lemma remove_missing_columns_only_drops_witness :
  index (mkDF Sample.ten_labels (@nil (label * Series Z))) = index Sample.ten_rows
  /\ columns (mkDF Sample.ten_labels (@nil (label * Series Z)))
     `sublist_of` columns Sample.ten_rows
  /\ (wf Sample.ten_rows -> wf (mkDF Sample.ten_labels (@nil (label * Series Z)))).
Proof.
  refine (remove_missing_columns_only_drops Sample.ten_rows
            (mkDF Sample.ten_labels []) (Some Sample.ten_labels) (1 # 5) _).
  reflexivity.
Defined.

(** From a rate of 1/5, which drops the column, to 1/2, which keeps
    it. *)
Lemma remove_missing_columns_monotone_witness :
  exists d', remove_missing_columns Sample.ten_rows (Some Sample.ten_labels) (1 # 2) = Ok d'
             /\ columns (mkDF Sample.ten_labels (@nil (label * Series Z))) ⊆ columns d'.
Proof.
  refine (remove_missing_columns_monotone Sample.ten_rows (mkDF Sample.ten_labels [])
            (Some Sample.ten_labels) (1 # 5) (1 # 2) _ _ _ _).
  - discriminate.
  - discriminate.
  - discriminate.
  - reflexivity.
Defined.

Lemma fill_na_forward_or_backward_twice_witness :
  fill_na_forward_or_backward
    (mkDF [LInt 0; LInt 1] [(LStr "a", [Some 1%Z; Some 1%Z]); (LStr "b", [None; Some 2%Z])])
    None "ffill"
  = Ok (mkDF [LInt 0; LInt 1]
             [(LStr "a", [Some 1%Z; Some 1%Z]); (LStr "b", [None; Some 2%Z])]).
Proof.
  refine (fill_na_forward_or_backward_twice Sample.two_columns _ None None "ffill" _).
  reflexivity.
Defined.

(** On the frame with a gap in column "a", over the window of the
    whole column. *)
Lemma fill_na_by_rolling_never_returns_witness :
  fill_na_by_rolling Sample.gaps (Some [LStr "a"]) "median" None false
  = Raise (AttributeError "'Rolling' object has no attribute 'transform'").
Proof.
  refine (proj2 (proj2 (fill_na_by_rolling_never_returns Sample.gaps (Some [LStr "a"])
                          "median" None false)) _ _ _ _).
  - right. left.
  - intros x Hx. apply list_elem_of_singleton in Hx as ->. left.
  - by vm_compute.
  - apply (bool_decide_unpack _). by vm_compute.
Defined.

Lemma fill_na_by_statistics_keeps_present_cells_witness :
  exists d,
    fill_na_by_statistics Sample.gaps None "mean" = Ok d
    /\ index d = index Sample.gaps
    /\ forall l s, (l, s) ∈ columns Sample.gaps ->
         exists s', getitem d l = Ok s'
                    /\ length s' = length s
                    /\ (forall i x, s !! i = Some (Some x) -> s' !! i = Some (Some x))
                    /\ (forall i j, s !! i = Some None -> s !! j = Some None ->
                          s' !! i = s' !! j)
                    /\ ((forall x, x ∈ s -> x = None) -> s' = s).
Proof.
  refine (proj1 (fill_na_by_statistics_keeps_present_cells Sample.gaps None "mean" _ _)).
  - left.
  - apply (bool_decide_unpack _). by vm_compute.
Defined.

(** The frame of modes of this frame has the single row 0; the gap is
    in row 2. *)
Lemma fill_na_by_statistics_mode_by_row_label_witness :
  exists d s',
    fill_na_by_statistics Sample.trailing_gap None "mode" = Ok d
    /\ getitem d (LStr "a") = Ok s'
    /\ s' !! 2%nat = Some None.
Proof.
  refine (fill_na_by_statistics_mode_by_row_label Sample.trailing_gap None (LStr "a")
            [Some 1%Q; Some 1%Q; None] 2 (LInt 2) _ _ _ _ _).
  - apply (bool_decide_unpack _). by vm_compute.
  - left.
  - reflexivity.
  - reflexivity.
  - apply (bool_decide_unpack _). by vm_compute.
Defined.

End MissingValueMore.

(** ** Properties of class DataImport *)

Module DataImportFacts.
Import DataImport.

Lemma list_ascii_app (s1 s2 : string) :
  list_ascii_of_string (s1 ++ s2)%string
  = list_ascii_of_string s1 ++ list_ascii_of_string s2.
Proof. induction s1 as [|a s1 IH]; [done|]. simpl. f_equal. exact IH. Qed.

Lemma endswith_app (stem ext : string) : endswith (stem ++ ext)%string ext = true.
Proof.
  unfold endswith. apply bool_decide_eq_true_2.
  rewrite list_ascii_app. by apply suffix_app_r.
Qed.

(** Two endings of one path are comparable: when neither of two
    extensions ends with the other, a path that ends with one does not end
    with the other. *)
Lemma endswith_incomparable (stem ext other : string) :
  endswith ext other = false -> endswith other ext = false ->
  endswith (stem ++ ext)%string other = false.
Proof.
  unfold endswith. rewrite !bool_decide_eq_false. intros H1 H2 Hs.
  assert (He : list_ascii_of_string ext
               `suffix_of` list_ascii_of_string (stem ++ ext)%string).
  { rewrite list_ascii_app. by apply suffix_app_r. }
  destruct (suffix_weak_total _ _ _ Hs He); tauto.
Qed.

Section Readers.
Context {V : Type}.
Variable read_csv : string -> string -> res (DataFrame V).
Variable read_excel : string -> res (DataFrame V).

(** The reader call behind each of the nine endings. *)
Lemma read_by_extension_known (stem : string) :
  read_by_extension read_csv read_excel (stem ++ ".csv")%string
  = Some (read_csv (stem ++ ".csv")%string ",")
  /\ (forall ext, ext ∈ excel_extensions ->
        read_by_extension read_csv read_excel (stem ++ ext)%string
        = Some (read_excel (stem ++ ext)%string))
  /\ read_by_extension read_csv read_excel (stem ++ ".txt")%string
     = Some (read_csv (stem ++ ".txt")%string tab).
Proof.
  unfold read_by_extension. split; [|split].
  - by rewrite endswith_app.
  - intros ext Hext.
    assert (Hcsv : endswith (stem ++ ext)%string ".csv" = false).
    { unfold excel_extensions in Hext.
      repeat (apply elem_of_cons in Hext as [->|Hext];
              [by apply endswith_incomparable|]).
      by apply not_elem_of_nil in Hext. }
    rewrite Hcsv.
    assert (Hex : existsb (endswith (stem ++ ext)%string) excel_extensions = true).
    { apply existsb_exists. exists ext. split; [by apply list_elem_of_In|].
      apply endswith_app. }
    by rewrite Hex.
  - rewrite (endswith_incomparable stem ".txt" ".csv") by done.
    unfold excel_extensions. cbn [existsb].
    rewrite !(endswith_incomparable stem ".txt") by done.
    cbn [orb]. by rewrite endswith_app.
Qed.

(** X22. The reader is chosen by the ending of the path alone, and [sep]
    plays no part: whatever comes before the extension, a path in [.csv]
    goes to the CSV reader with the comma, a path in one of the seven
    spreadsheet extensions to the spreadsheet reader, and a path in [.txt]
    to the CSV reader with a tab.  The table the reader returns is
    returned and nothing is printed; when the reader raises, the call
    returns [None] and that exception is the one printed. *)
Theorem import_file_dispatch (stem : string) (sep : option string) :
  ((forall df, read_csv (stem ++ ".csv")%string "," = Ok df ->
      import_file read_csv read_excel (stem ++ ".csv")%string sep = (Some df, []))
   /\ (forall e, read_csv (stem ++ ".csv")%string "," = Raise e ->
         import_file read_csv read_excel (stem ++ ".csv")%string sep = (None, [e])))
  /\ (forall ext, ext ∈ excel_extensions ->
        (forall df, read_excel (stem ++ ext)%string = Ok df ->
           import_file read_csv read_excel (stem ++ ext)%string sep = (Some df, []))
        /\ (forall e, read_excel (stem ++ ext)%string = Raise e ->
              import_file read_csv read_excel (stem ++ ext)%string sep = (None, [e])))
  /\ ((forall df, read_csv (stem ++ ".txt")%string tab = Ok df ->
         import_file read_csv read_excel (stem ++ ".txt")%string sep = (Some df, []))
      /\ (forall e, read_csv (stem ++ ".txt")%string tab = Raise e ->
            import_file read_csv read_excel (stem ++ ".txt")%string sep = (None, [e]))).
Proof.
  destruct (read_by_extension_known stem) as (Hcsv & Hexcel & Htxt).
  unfold import_file. split; [|split].
  - rewrite Hcsv. split; [intros df -> | intros e ->]; reflexivity.
  - intros ext Hext. rewrite (Hexcel ext Hext).
    split; [intros df -> | intros e ->]; reflexivity.
  - rewrite Htxt. split; [intros df -> | intros e ->]; reflexivity.
Qed.

(** X23. Only the nine extensions yield a table: a path that ends with none
    of them gives [None] and prints nothing, whatever the readers would
    do; and whenever a table comes back the path has one of the nine
    endings. *)
Theorem import_file_known_extensions_only
    (path : string) (sep : option string) (df : DataFrame V) :
  (Forall (fun ext => endswith path ext = false)
          (".csv" :: excel_extensions ++ [".txt"]) ->
   import_file read_csv read_excel path sep = (None, []))
  /\ ((import_file read_csv read_excel path sep).1 = Some df ->
      Exists (fun ext => endswith path ext = true)
             (".csv" :: excel_extensions ++ [".txt"])).
Proof.
  unfold import_file, read_by_extension. split.
  - intros Hall. apply Forall_cons_1 in Hall as [Hcsv Hall].
    apply Forall_app in Hall as [Hexcel Htxt].
    apply Forall_cons_1 in Htxt as [Htxt _]. rewrite Hcsv, Htxt.
    assert (Hex : existsb (endswith path) excel_extensions = false).
    { apply not_true_is_false. intros (ext & Hin & Hext)%existsb_exists.
      rewrite Forall_forall in Hexcel.
      rewrite (Hexcel ext) in Hext by (by apply list_elem_of_In). discriminate. }
    by rewrite Hex.
  - destruct (endswith path ".csv") eqn:Hcsv; [intros _; by left|].
    destruct (existsb (endswith path) excel_extensions) eqn:Hex.
    { intros _. right. apply Exists_app. left.
      apply existsb_exists in Hex as (ext & Hin & Hext).
      apply Exists_exists. exists ext. split; [by apply list_elem_of_In | done]. }
    destruct (endswith path ".txt") eqn:Htxt; [|discriminate].
    intros _. right. apply Exists_app. right. by left.
Qed.

End Readers.

(** A CSV reader that returns a table, behind a path in [.csv] and a
    separator that is not the comma. *)
Lemma import_file_dispatch_witness :
  import_file (V:=Z) (fun _ _ => Ok Sample.two_columns)
    (fun _ => Raise (ValueError "unreadable")) "data.csv" (Some ";")
  = (Some Sample.two_columns, []).
Proof.
  refine (proj1 (proj1 (import_file_dispatch
                          (fun _ _ => Ok Sample.two_columns)
                          (fun _ => Raise (ValueError "unreadable"))
                          "data" (Some ";"))) Sample.two_columns _).
  reflexivity.
Defined.

(** A spreadsheet reader that raises: nothing comes back and the
    exception is the one printed. *)
Example import_file_reader_raises :
  import_file (V:=Z) (fun _ _ => Ok Sample.two_columns)
    (fun _ => Raise (ValueError "unreadable")) "data.xlsx" None
  = (None, [ValueError "unreadable"]).
Proof. reflexivity. Qed.

(** An upper-case extension is none of the nine. *)
Lemma import_file_known_extensions_only_witness :
  import_file (V:=Z) (fun _ _ => Ok Sample.two_columns) (fun _ => Ok Sample.two_columns)
    "data.CSV" None = (None, []).
Proof.
  refine (proj1 (import_file_known_extensions_only
                   (fun _ _ => Ok Sample.two_columns) (fun _ => Ok Sample.two_columns)
                   "data.CSV" None Sample.two_columns) _).
  repeat constructor.
Defined.

End DataImportFacts.
